(** * Image references: hostname normalisation, named references and the
      [Reference] facade of package [image]

    A shallow embedding of [util/image/reference.go] and of the file that
    defines [Reference], [clean], [Parse] and [ParseRepo], together with the
    properties stated for them.

    Go strings are byte sequences: they are modelled by [string], whose
    characters are the bytes.  Go [int] indices are modelled by [Z] (with
    [-1] for "not found"), as the code has them. *)

From Stdlib Require Import String Ascii ZArith List Bool Lia.
Import ListNotations.

Local Open Scope string_scope.
Local Open Scope Z_scope.

(** ** The functions of Go's [strings] package used by the code *)

Module GoStrings.

(** [len(s)] *)
Definition len (s : string) : Z := Z.of_nat (String.length s).

(** [s[:n]] for a natural index. *)
Fixpoint take (n : nat) (s : string) : string :=
  match n, s with
  | O, _ => EmptyString
  | S _, EmptyString => EmptyString
  | S n', String c s' => String c (take n' s')
  end.

(** [s[n:]] for a natural index. *)
Fixpoint drop (n : nat) (s : string) : string :=
  match n, s with
  | O, _ => s
  | S _, EmptyString => EmptyString
  | S n', String _ s' => drop n' s'
  end.

(** [s[:i]] and [s[i:]] for an [int] index within bounds. *)
Definition sliceTo (s : string) (i : Z) : string := take (Z.to_nat i) s.
Definition sliceFrom (s : string) (i : Z) : string := drop (Z.to_nat i) s.

(** Position of the first byte equal to [c], counted from [from]. *)
Fixpoint indexByteFrom (from : Z) (c : ascii) (s : string) : Z :=
  match s with
  | EmptyString => -1
  | String a s' => if Ascii.eqb a c then from else indexByteFrom (from + 1) c s'
  end.

(** [strings.IndexRune(s, r)] for an ASCII rune [r]: the index of the first
    byte equal to [r], or [-1].  (An ASCII byte never occurs inside the
    encoding of another rune.) *)
Definition IndexRune (s : string) (r : ascii) : Z := indexByteFrom 0 r s.

(** [strings.ContainsRune(s, r)] for an ASCII rune. *)
Definition ContainsRune (s : string) (r : ascii) : bool := 0 <=? IndexRune s r.

Fixpoint memByte (c : ascii) (chars : string) : bool :=
  match chars with
  | EmptyString => false
  | String a chars' => Ascii.eqb a c || memByte c chars'
  end.

(** [strings.ContainsAny(s, chars)] for ASCII [chars]. *)
Fixpoint ContainsAny (s chars : string) : bool :=
  match s with
  | EmptyString => false
  | String a s' => memByte a chars || ContainsAny s' chars
  end.

(** [strings.HasPrefix(s, prefix)] *)
Fixpoint HasPrefix (s prefix : string) : bool :=
  match prefix, s with
  | EmptyString, _ => true
  | String _ _, EmptyString => false
  | String p prefix', String a s' => Ascii.eqb a p && HasPrefix s' prefix'
  end.

(** [strings.TrimPrefix(s, prefix)] *)
Definition TrimPrefix (s prefix : string) : string :=
  if HasPrefix s prefix then sliceFrom s (len prefix) else s.

(** [strings.Index(s, substr)]: index of the first occurrence of [substr],
    counted from [from], or [-1]. *)
Fixpoint indexFrom (from : Z) (s substr : string) : Z :=
  if HasPrefix s substr then from
  else match s with
       | EmptyString => -1
       | String _ s' => indexFrom (from + 1) s' substr
       end.

Definition Index (s substr : string) : Z := indexFrom 0 s substr.

(** [strings.Replace(s, old, new, n)] for a non-empty [old] and [n >= 0]:
    the first [n] non-overlapping occurrences of [old] are replaced. *)
Fixpoint replaceN (n : nat) (s old new : string) : string :=
  match n with
  | O => s
  | S n' =>
      let i := Index s old in
      if i <? 0 then s
      else sliceTo s i ++ new ++ replaceN n' (sliceFrom s (i + len old)) old new
  end.

Definition Replace (s old new : string) (n : Z) : string :=
  replaceN (Z.to_nat n) s old new.

(** *** [strings.ToLower] *)

Definition byteVal (c : ascii) : Z := Z.of_nat (nat_of_ascii c).

(** [c < utf8.RuneSelf] *)
Definition isASCIIByte (c : ascii) : bool := byteVal c <? 128.

Definition isUpperByte (c : ascii) : bool :=
  (byteVal "A" <=? byteVal c) && (byteVal c <=? byteVal "Z").

(** [c += 'a' - 'A'] on an upper-case ASCII letter. *)
Definition lowerByte (c : ascii) : ascii :=
  if isUpperByte c then ascii_of_nat (Z.to_nat (byteVal c + 32)) else c.

Fixpoint isASCII (s : string) : bool :=
  match s with
  | EmptyString => true
  | String c s' => isASCIIByte c && isASCII s'
  end.

Fixpoint hasUpper (s : string) : bool :=
  match s with
  | EmptyString => false
  | String c s' => isUpperByte c || hasUpper s'
  end.

Fixpoint mapBytes (f : ascii -> ascii) (s : string) : string :=
  match s with
  | EmptyString => EmptyString
  | String c s' => String (f c) (mapBytes f s')
  end.

(** [strings.ToLower(s)].  A string of ASCII bytes is handled byte by byte;
    any other string goes through [strings.Map(unicode.ToLower, s)], which
    depends on the Unicode case tables of the Go runtime and is taken as
    the parameter [unicodeLower]. *)
Definition ToLowerWith (unicodeLower : string -> string) (s : string) : string :=
  if isASCII s then
    if hasUpper s then mapBytes lowerByte s else s
  else unicodeLower s.

End GoStrings.

Import GoStrings.

(** ** Constants of [reference.go] *)

Definition DefaultTag : string := "latest".
Definition WrongRegistryHostname : string := "docker.io".
Definition DefaultRegistryHostname : string := "index.docker.io".
Definition DefaultScheme : string := "https".
Definition DefaultRepoPrefix : string := "library/".

(** ** [splitHostname] *)

(** [splitHostname] splits a repository name into hostname and remote name.
    The three statements of the Go function are kept apart: the split proper,
    the rewrite of the alias hostname, and the official-image prefix. *)
Definition splitHostname (name : string) : string * string :=
  let i := IndexRune name "/" in
  let '(hostname, remoteName) :=
    if (i =? -1)
       || (negb (ContainsAny (sliceTo name i) ".:")
           && negb (String.eqb (sliceTo name i) "localhost"))
    then (DefaultRegistryHostname, name)
    else (sliceTo name i, sliceFrom name (i + 1)) in
  let hostname :=
    if String.eqb hostname WrongRegistryHostname
    then DefaultRegistryHostname else hostname in
  let remoteName :=
    if String.eqb hostname DefaultRegistryHostname
       && negb (ContainsRune remoteName "/")
    then DefaultRepoPrefix ++ remoteName else remoteName in
  (hostname, remoteName).

(** ** Errors and results *)

(** The [error] values the package returns.  The constructors stand for the
    messages built in the source:
    - [ErrReference msg]: an error value produced by the external
      [reference] package and passed on unchanged;
    - [ErrParsing s cause]: ["Error parsing reference: %q is not a valid
      repository/tag, error: %s"] of [ParseNamed];
    - [ErrNotLowercase]: ["invalid reference format: repository name must be
      lowercase"] of [normalize];
    - [ErrHexName name]: ["Invalid repository name (%s), cannot specify
      64-byte hexadecimal strings"] of [validateName]. *)
Inductive error : Type :=
| ErrReference (msg : string)
| ErrParsing (s : string) (cause : error)
| ErrNotLowercase
| ErrHexName (name : string).

(** A Go result pair [(T, error)]: either a value with a [nil] error, or an
    error. *)
Inductive result (A : Type) : Type :=
| Ok (a : A)
| Err (e : error).

Arguments Ok {A} a.
Arguments Err {A} e.

Definition bind {A B : Type} (r : result A) (k : A -> result B) : result B :=
  match r with
  | Ok a => k a
  | Err e => Err e
  end.

Notation "x <- e ;; k" := (bind e (fun x => k))
  (at level 61, e at next level, right associativity).

(** A method call on a [nil] interface value panics.  Such a call is modelled
    as an [option], [None] being the panic. *)
Definition andThen {A B : Type} (o : option A) (k : A -> option B) : option B :=
  match o with
  | Some a => k a
  | None => None
  end.

Notation "x <~ e ;; k" := (andThen e (fun x => k))
  (at level 61, e at next level, right associativity).

(** ** Values of the external [reference] package

    The package only sees such a value through its interface: [Name()],
    [String()] and the type assertions to [reference.NamedTagged] and
    [reference.Canonical].  A value is therefore represented by what these
    return.  [digest.Digest] is a Go string type. *)

Definition Digest : Type := string.

(** A value of static type [reference.Named]: the assertions may fail. *)
Record LibNamed : Type := mkLibNamed {
  libName : string;
  libString : string;
  libTag : option string;
  libDigest : option Digest
}.

(** A value of static type [reference.NamedTagged], as returned by
    [reference.WithTag]: it has a [Tag()]. *)
Record LibTagged : Type := mkLibTagged {
  tgName : string;
  tgString : string;
  tgTag : string;
  tgDigest : option Digest
}.

(** A value of static type [reference.Canonical], as returned by
    [reference.WithDigest]: it has a [Digest()]. *)
Record LibCanonical : Type := mkLibCanonical {
  cnName : string;
  cnString : string;
  cnDigest : Digest;
  cnTag : option string
}.

(** ** The [Named] interface and its three implementations

    [namedRef] embeds a [reference.Named]; [taggedRef] and [canonicalRef]
    embed a [namedRef].  A [taggedRef] is only built by [WithTag], from the
    [reference.NamedTagged] that [reference.WithTag] returned, and a
    [canonicalRef] only by [WithDigest]: the constructors carry the embedded
    value at that static type, so that the assertions in [Tag()] and
    [Digest()] succeed.  [nilNamed] is the [nil] interface value. *)
Inductive Named : Type :=
| nilNamed
| namedRef (r : LibNamed)
| taggedRef (r : LibTagged)
| canonicalRef (r : LibCanonical).

(** [Name()], promoted from the embedded [reference.Named]. *)
Definition Named_Name (n : Named) : option string :=
  match n with
  | nilNamed => None
  | namedRef r => Some (libName r)
  | taggedRef r => Some (tgName r)
  | canonicalRef r => Some (cnName r)
  end.


Definition Named_FullName (n : Named) : option string :=
  name <~ Named_Name n ;;
  let '(hostname, remoteName) := splitHostname name in
  Some (hostname ++ "/" ++ remoteName).

Definition Named_Hostname (n : Named) : option string :=
  name <~ Named_Name n ;;
  let '(hostname, _) := splitHostname name in
  Some hostname.

Definition Named_RemoteName (n : Named) : option string :=
  name <~ Named_Name n ;;
  let '(_, remoteName) := splitHostname name in
  Some remoteName.

(** The type assertion [ref.(NamedTagged)] followed by [Tag()]: only a
    [taggedRef] has the method [Tag]. *)
Definition asNamedTagged (ref : Named) : option string :=
  match ref with
  | taggedRef r => Some (tgTag r)
  | _ => None
  end.

(** The type assertion [ref.(Canonical)] followed by [Digest()]: only a
    [canonicalRef] has the method [Digest]. *)
Definition asCanonical (ref : Named) : option Digest :=
  match ref with
  | canonicalRef r => Some (cnDigest r)
  | _ => None
  end.

(** [IsNameOnly] *)
Definition IsNameOnly (ref : Named) : bool :=
  match asNamedTagged ref with
  | Some _ => false
  | None =>
      match asCanonical ref with
      | Some _ => false
      | None => true
      end
  end.

(** ** What the package takes from outside

    - [unicodeLower]: [strings.Map(unicode.ToLower, s)], reached by
      [strings.ToLower] on a string with a non-ASCII byte;
    - [ValidateID]: a function of this package that is not in the files at
      hand; [true] when it returns a [nil] error (the name is an ID);
    - the four functions of the external [reference] package that the code
      calls.  [reference.WithTag] and [reference.WithDigest] receive the
      package's own [Named] value. *)
Class Env : Type := {
  unicodeLower : string -> string;
  ValidateID : string -> bool;
  reference_ParseNormalizedNamed : string -> result LibNamed;
  reference_WithName : string -> result LibNamed;
  reference_WithTag : Named -> string -> result LibTagged;
  reference_WithDigest : Named -> Digest -> result LibCanonical
}.

Section Image.

Context {E : Env}.

Definition ToLower (s : string) : string := ToLowerWith unicodeLower s.

(** [normalize] *)
Definition normalize (name : string) : result string :=
  let '(host, remoteName) := splitHostname name in
  if negb (String.eqb (ToLower remoteName) remoteName) then
    Err ErrNotLowercase
  else if String.eqb host DefaultRegistryHostname then
    if HasPrefix remoteName DefaultRepoPrefix then
      Ok (TrimPrefix remoteName DefaultRepoPrefix)
    else Ok remoteName
  else Ok name.

(** [validateName]; [None] is the [nil] error. *)
Definition validateName (name : string) : option error :=
  if ValidateID name then Some (ErrHexName name) else None.

(** [WithName] *)
Definition WithName (name : string) : result Named :=
  name <- normalize name ;;
  match validateName name with
  | Some err => Err err
  | None =>
      r <- reference_WithName name ;;
      Ok (namedRef r)
  end.

(** [WithTag] *)
Definition WithTag (name : Named) (tag : string) : result Named :=
  r <- reference_WithTag name tag ;;
  Ok (taggedRef r).

(** [WithDigest] *)
Definition WithDigest (name : Named) (digest : Digest) : result Named :=
  r <- reference_WithDigest name digest ;;
  Ok (canonicalRef r).

(** [ParseNamed] *)
Definition ParseNamed (s : string) : result Named :=
  match reference_ParseNormalizedNamed s with
  | Err err => Err (ErrParsing s err)
  | Ok named =>
      r <- WithName (libName named) ;;
      match libDigest named with
      | Some digest => WithDigest r digest
      | None =>
          match libTag named with
          | Some tag => WithTag r tag
          | None => Ok r
          end
      end
  end.

(** [WithDefaultTag].  The error of [WithTag] is dropped; with it comes a
    [nil] result. *)
Definition WithDefaultTag (ref : Named) : Named :=
  if IsNameOnly ref then
    match WithTag ref DefaultTag with
    | Ok ref' => ref'
    | Err _ => nilNamed
    end
  else ref.

End Image.

(** ** The [Reference] facade *)

Record Reference : Type := mkReference {
  named : Named;
  tag : string
}.

Definition Reference_Name (r : Reference) : option string :=
  remoteName <~ Named_RemoteName (named r) ;;
  Some (remoteName ++ tag r).

Definition Reference_ShortName (r : Reference) : option string :=
  Named_RemoteName (named r).

(** [Tag()]: [r.tag[1:]] when [len(r.tag) > 1], else the empty string. *)
Definition Reference_Tag (r : Reference) : string :=
  if 1 <? len (tag r) then sliceFrom (tag r) 1 else EmptyString.

Definition Reference_Registry (r : Reference) : option string :=
  Named_Hostname (named r).

Definition Reference_Repository (r : Reference) : option string :=
  Named_FullName (named r).

Definition Reference_Remote (r : Reference) : option string :=
  fullName <~ Named_FullName (named r) ;;
  Some (fullName ++ tag r).

(** [clean] *)
Definition clean (url : string) : string :=
  if HasPrefix url "http://" then Replace url "http://" EmptyString 1
  else if HasPrefix url "https://" then Replace url "https://" EmptyString 1
  else url.

(** The flat record [Repository]. *)
Record Repository : Type := mkRepository {
  Repository_Name : string;
  Repository_Repository : string;
  Repository_Registry : string;
  Repository_Scheme : string;
  Repository_ShortName : string;
  Repository_Remote : string;
  Repository_Tag : string
}.

Section Parsing.

Context {E : Env}.

(** [Parse].  The type switch tries [Canonical] first, then
    [NamedTagged]; a value that is neither leaves [t] empty. *)
Definition Parse (remote : string) : result Reference :=
  match ParseNamed (clean remote) with
  | Err err => Err err
  | Ok n =>
      let n := WithDefaultTag n in
      let t :=
        match asCanonical n with
        | Some d => "@" ++ d
        | None =>
            match asNamedTagged n with
            | Some tg => ":" ++ tg
            | None => EmptyString
            end
        end in
      Ok {| named := n; tag := t |}
  end.

(** [ParseRepo].  The composite literal names six fields; [Scheme] is not
    among them and keeps the zero value of its type.  The outer [option]
    is [None] when an accessor panics. *)
Definition ParseRepo (remote : string) : option (result Repository) :=
  match ParseNamed (clean remote) with
  | Err err => Some (Err err)
  | Ok n =>
      let n := WithDefaultTag n in
      let t :=
        match asCanonical n with
        | Some d => "@" ++ d
        | None =>
            match asNamedTagged n with
            | Some tg => ":" ++ tg
            | None => EmptyString
            end
        end in
      let ref := {| named := n; tag := t |} in
      name <~ Reference_Name ref ;;
      repository <~ Reference_Repository ref ;;
      registry <~ Reference_Registry ref ;;
      remote' <~ Reference_Remote ref ;;
      shortName <~ Reference_ShortName ref ;;
      Some (Ok {| Repository_Name := name;
                  Repository_Repository := repository;
                  Repository_Registry := registry;
                  Repository_Scheme := EmptyString;
                  Repository_ShortName := shortName;
                  Repository_Remote := remote';
                  Repository_Tag := Reference_Tag ref |})
  end.

End Parsing.

(** ** A concrete environment

    The theorems below hold for every [Env].  To run the package on concrete
    inputs an environment is needed; [StdEnv.env] is one.  Its [reference]
    functions follow the behaviour of the package
    [github.com/distribution/distribution/v3/reference] on the grammar
    [name[:tag][@digest]]: names are split into domain and path, the
    familiar forms are expanded to [docker.io/library/...], and
    [WithTag]/[WithDigest] keep a digest or tag that the name they are given
    already exposes.  IPv6 hosts are left out. *)

Module StdEnv.

Definition inRange (lo hi c : ascii) : bool :=
  (byteVal lo <=? byteVal c) && (byteVal c <=? byteVal hi).

Definition isDigit (c : ascii) : bool := inRange "0" "9" c.
Definition isLower (c : ascii) : bool := inRange "a" "z" c.
Definition isUpper (c : ascii) : bool := inRange "A" "Z" c.
Definition isLowerAlnum (c : ascii) : bool := isLower c || isDigit c.
Definition isAlnum (c : ascii) : bool := isLower c || isUpper c || isDigit c.
Definition isLowerHex (c : ascii) : bool := isDigit c || inRange "a" "f" c.
Definition isHex (c : ascii) : bool := isLowerHex c || inRange "A" "F" c.
Definition isWord (c : ascii) : bool := isAlnum c || Ascii.eqb c "_".

Fixpoint allBytes (p : ascii -> bool) (s : string) : bool :=
  match s with
  | EmptyString => true
  | String c s' => p c && allBytes p s'
  end.

Definition nonEmpty (s : string) : bool := negb (String.eqb s EmptyString).

Fixpoint splitOn (c : ascii) (s : string) : list string :=
  match s with
  | EmptyString => [EmptyString]
  | String a s' =>
      if Ascii.eqb a c then EmptyString :: splitOn c s'
      else match splitOn c s' with
           | x :: xs => String a x :: xs
           | [] => [String a EmptyString]
           end
  end.

Fixpoint lastIndexByteFrom (from : Z) (c : ascii) (s : string) : Z :=
  match s with
  | EmptyString => -1
  | String a s' =>
      let later := lastIndexByteFrom (from + 1) c s' in
      if 0 <=? later then later else if Ascii.eqb a c then from else -1
  end.

(** Separators between the alphanumeric runs of a path component: one
    period, one or two underscores, or any number of dashes. *)
Definition separatorOK (sep : string) : bool :=
  String.eqb sep "." || String.eqb sep "_" || String.eqb sep "__"
  || (nonEmpty sep && allBytes (Ascii.eqb "-") sep).

Fixpoint componentFrom (sep : string) (started : bool) (s : string) : bool :=
  match s with
  | EmptyString => started && negb (nonEmpty sep)
  | String c s' =>
      if isLowerAlnum c then
        (negb (nonEmpty sep) || separatorOK sep) && componentFrom EmptyString true s'
      else if Ascii.eqb c "." || Ascii.eqb c "_" || Ascii.eqb c "-" then
        started && componentFrom (sep ++ String c EmptyString) started s'
      else false
  end.

Definition pathComponentOK (s : string) : bool := componentFrom EmptyString false s.

Definition pathOK (path : string) : bool :=
  forallb pathComponentOK (splitOn "/" path).

(** The last byte is not a dash. *)
Definition endsAlnum (s : string) : bool :=
  negb (lastIndexByteFrom 0 "-" s =? len s - 1).

Definition domainComponentOK (s : string) : bool :=
  nonEmpty s
  && allBytes (fun c => isAlnum c || Ascii.eqb c "-") s
  && negb (HasPrefix s "-") && endsAlnum s.

Definition domainOK (d : string) : bool :=
  let i := IndexRune d ":" in
  let host := if i <? 0 then d else sliceTo d i in
  let portOK :=
    if i <? 0 then true
    else nonEmpty (sliceFrom d (i + 1)) && allBytes isDigit (sliceFrom d (i + 1)) in
  portOK && forallb domainComponentOK (splitOn "." host).

Definition nameOK (name : string) : bool :=
  let i := IndexRune name "/" in
  ((0 <=? i) && domainOK (sliceTo name i) && pathOK (sliceFrom name (i + 1)))
  || pathOK name.

Definition tagOK (t : string) : bool :=
  match t with
  | EmptyString => false
  | String c rest =>
      isWord c
      && allBytes (fun a => isWord a || Ascii.eqb a "." || Ascii.eqb a "-") rest
      && (len t <=? 128)
  end.

(** [algorithm:hex], with at least 32 hexadecimal digits. *)
Definition digestOK (d : Digest) : bool :=
  let i := IndexRune d ":" in
  (0 <? i)
  && allBytes isAlnum (sliceTo d i)
  && allBytes isHex (sliceFrom d (i + 1))
  && (32 <=? len (sliceFrom d (i + 1))).

Definition invalidFormat : error := ErrReference "invalid reference format".

(** [splitDockerDomain] of the reference package. *)
Definition splitDockerDomain (name : string) : string * string :=
  let i := IndexRune name "/" in
  let '(domain, remainder) :=
    if (i =? -1)
       || (negb (ContainsAny (sliceTo name i) ".:")
           && negb (String.eqb (sliceTo name i) "localhost"))
    then ("docker.io", name)
    else (sliceTo name i, sliceFrom name (i + 1)) in
  let domain := if String.eqb domain "index.docker.io" then "docker.io" else domain in
  let remainder :=
    if String.eqb domain "docker.io" && negb (ContainsRune remainder "/")
    then "library/" ++ remainder else remainder in
  (domain, remainder).

(** The grammar proper, on a string of the form [domain/path[:tag][@digest]]. *)
Definition parseReference (s : string) : result LibNamed :=
  let at_ := IndexRune s "@" in
  let nameTag := if at_ <? 0 then s else sliceTo s at_ in
  let digest := if at_ <? 0 then None else Some (sliceFrom s (at_ + 1)) in
  let slash := lastIndexByteFrom 0 "/" nameTag in
  let colon := IndexRune (sliceFrom nameTag (slash + 1)) ":" in
  let name := if colon <? 0 then nameTag else sliceTo nameTag (slash + 1 + colon) in
  let tg := if colon <? 0 then None else Some (sliceFrom nameTag (slash + 1 + colon + 1)) in
  let tagged := match tg with Some t => name ++ ":" ++ t | None => name end in
  if negb (nameOK name) then Err invalidFormat
  else if 255 <? len name then
    Err (ErrReference "repository name must not be more than 255 characters")
  else if match tg with Some t => negb (tagOK t) | None => false end then
    Err invalidFormat
  else
    match digest with
    | Some d =>
        if digestOK d then
          Ok {| libName := name; libString := tagged ++ "@" ++ d;
                libTag := tg; libDigest := Some d |}
        else Err (ErrReference "invalid digest format")
    | None =>
        Ok {| libName := name; libString := tagged;
              libTag := tg; libDigest := None |}
    end.

(** The Unicode case tables are not reproduced: text with a non-ASCII byte
    is left as it is.  Every concrete input below is ASCII. *)
Definition stdUnicodeLower (s : string) : string := s.

Definition isIdentifier (s : string) : bool :=
  (len s =? 64) && allBytes isLowerHex s.

Definition ParseNormalizedNamed (s : string) : result LibNamed :=
  if isIdentifier s then
    Err (ErrReference "invalid repository name, cannot specify 64-byte hexadecimal strings")
  else
    let '(domain, remainder) := splitDockerDomain s in
    let tagSep := IndexRune remainder ":" in
    let remoteName := if -1 <? tagSep then sliceTo remainder tagSep else remainder in
    if negb (String.eqb (ToLowerWith stdUnicodeLower remoteName) remoteName) then
      Err (ErrReference "invalid reference format: repository name must be lowercase")
    else parseReference (domain ++ "/" ++ remainder).

Definition WithName (name : string) : result LibNamed :=
  if 255 <? len name then
    Err (ErrReference "repository name must not be more than 255 characters")
  else if nameOK name then
    Ok {| libName := name; libString := name; libTag := None; libDigest := None |}
  else Err invalidFormat.

Definition WithTag (name : Named) (t : string) : result LibTagged :=
  if negb (tagOK t) then Err (ErrReference "invalid tag format")
  else
    match Named_Name name with
    | None => Err (ErrReference "nil name")
    | Some path =>
        match asCanonical name with
        | Some d =>
            Ok {| tgName := path; tgString := path ++ ":" ++ t ++ "@" ++ d;
                  tgTag := t; tgDigest := Some d |}
        | None =>
            Ok {| tgName := path; tgString := path ++ ":" ++ t;
                  tgTag := t; tgDigest := None |}
        end
    end.

Definition WithDigest (name : Named) (d : Digest) : result LibCanonical :=
  if negb (digestOK d) then Err (ErrReference "invalid digest format")
  else
    match Named_Name name with
    | None => Err (ErrReference "nil name")
    | Some path =>
        match asNamedTagged name with
        | Some t =>
            Ok {| cnName := path; cnString := path ++ ":" ++ t ++ "@" ++ d;
                  cnDigest := d; cnTag := Some t |}
        | None =>
            Ok {| cnName := path; cnString := path ++ "@" ++ d;
                  cnDigest := d; cnTag := None |}
        end
    end.

(** Modelled from the spec: [ValidateID], a function of this package whose
    file is not at hand.  A name is an ID when it is "syntactically a
    64-character hexadecimal string". *)
Definition stdValidateID (name : string) : bool := isIdentifier name.

Definition env : Env := {|
  unicodeLower := stdUnicodeLower;
  ValidateID := stdValidateID;
  reference_ParseNormalizedNamed := ParseNormalizedNamed;
  reference_WithName := WithName;
  reference_WithTag := WithTag;
  reference_WithDigest := WithDigest
|}.

End StdEnv.


(** ** Notions used in the statements *)

(** The property "valid name-only input": entirely lowercase, a single path
    segment, without the marks of a host. *)
Definition validNameOnly {E : Env} (n : string) : Prop :=
  ToLower n = n
  /\ ContainsRune n "/" = false
  /\ ContainsAny n ".:" = false
  /\ n <> "localhost".

(** The repository path of [name] is not entirely lowercase: the test of
    [normalize]. *)
Definition notLowercasePath {E : Env} (name : string) : Prop :=
  ToLower (snd (splitHostname name)) <> snd (splitHostname name).

(** The [reference] package accepts the default tag on every name it is
    given. *)
Definition acceptsDefaultTag {E : Env} : Prop :=
  forall n : Named, n <> nilNamed ->
    exists r, reference_WithTag n DefaultTag = Ok r.

(** The [reference] package keeps the name: the value of [WithName] is named
    by the string it was given, and [WithTag] and [WithDigest] keep the name
    of their argument. *)
Definition keepsName {E : Env} : Prop :=
  (forall s r, reference_WithName s = Ok r -> libName r = s)
  /\ (forall n t r, reference_WithTag n t = Ok r -> Named_Name n = Some (tgName r))
  /\ (forall n d r, reference_WithDigest n d = Ok r -> Named_Name n = Some (cnName r)).


(** The record [rec] holds the results of the accessors of [ref]. *)
Definition copiesAccessors (ref : Reference) (rec : Repository) : Prop :=
  Reference_Name ref = Some (Repository_Name rec)
  /\ Reference_Repository ref = Some (Repository_Repository rec)
  /\ Reference_Registry ref = Some (Repository_Registry rec)
  /\ Reference_Remote ref = Some (Repository_Remote rec)
  /\ Reference_ShortName ref = Some (Repository_ShortName rec)
  /\ Reference_Tag ref = Repository_Tag rec.

(** The test of [splitHostname] on the segment before the first slash: it
    is taken as a hostname when it contains '.' or ':' or is "localhost". *)
Definition hostLike (p : string) : bool :=
  ContainsAny p ".:" || String.eqb p "localhost".

(** The [reference] package keeps the tag and the digest it is given: they
    are what [Tag()] and [Digest()] of the value it returns give back. *)
Definition keepsTagAndDigest {E : Env} : Prop :=
  (forall n t r, reference_WithTag n t = Ok r -> tgTag r = t)
  /\ (forall n d r, reference_WithDigest n d = Ok r -> cnDigest r = d).

(** The suffix that [Parse] and [ParseRepo] compute in their type switch. *)
Definition suffixOf (n : Named) : string :=
  match asCanonical n with
  | Some d => "@" ++ d
  | None =>
      match asNamedTagged n with
      | Some tg => ":" ++ tg
      | None => EmptyString
      end
  end.

(** * Properties *)

(** ** Facts about the string functions *)

Section StringFacts.

Lemma take_append (p s : string) : take (String.length p) (p ++ s) = p.
Proof. induction p as [|c p IH]; simpl; [now destruct s | now rewrite IH]. Qed.

Lemma drop_append (p s : string) : drop (String.length p) (p ++ s) = s.
Proof. induction p as [|c p IH]; simpl; auto. Qed.

Lemma take_drop (n : nat) (s : string) : take n s ++ drop n s = s.
Proof.
  revert s; induction n as [|n IH]; intros [|c s]; simpl; auto.
  now rewrite IH.
Qed.

Lemma HasPrefix_append (p s : string) : HasPrefix (p ++ s) p = true.
Proof.
  induction p as [|c p IH]; simpl; [now destruct s|].
  now rewrite Ascii.eqb_refl, IH.
Qed.

Lemma HasPrefix_inv (s p : string) :
  HasPrefix s p = true -> s = p ++ drop (String.length p) s.
Proof.
  revert s; induction p as [|c p IH]; intros s H; simpl in *.
  - reflexivity.
  - destruct s as [|a s]; [discriminate|].
    apply andb_true_iff in H as [Hc Hp].
    apply Ascii.eqb_eq in Hc; subst a.
    simpl. f_equal. now apply IH.
Qed.

Lemma sliceFrom_len_append (p s : string) : sliceFrom (p ++ s) (len p) = s.
Proof. unfold sliceFrom, len. rewrite Nat2Z.id. apply drop_append. Qed.

Lemma sliceTo_len_append (p s : string) : sliceTo (p ++ s) (len p) = p.
Proof. unfold sliceTo, len. rewrite Nat2Z.id. apply take_append. Qed.

Lemma TrimPrefix_append (p s : string) : TrimPrefix (p ++ s) p = s.
Proof.
  unfold TrimPrefix. rewrite HasPrefix_append. apply sliceFrom_len_append.
Qed.

(** [Index] finds a prefix at position [0]. *)
Lemma indexFrom_found (from : Z) (s substr : string) :
  HasPrefix s substr = true -> indexFrom from s substr = from.
Proof. intros H. destruct s; cbn [indexFrom]; now rewrite H. Qed.

Lemma Index_prefix (p s : string) : Index (p ++ s) p = 0.
Proof. apply indexFrom_found, HasPrefix_append. Qed.

(** Replacing the first occurrence of a prefix removes that prefix. *)
Lemma Replace_prefix_once (p s : string) :
  Replace (p ++ s) p EmptyString 1 = s.
Proof.
  unfold Replace. change (Z.to_nat 1) with 1%nat. simpl replaceN.
  rewrite Index_prefix. simpl (0 <? 0). cbv iota.
  change (sliceTo (p ++ s) 0) with EmptyString.
  rewrite Z.add_0_l, sliceFrom_len_append. reflexivity.
Qed.

Lemma indexByteFrom_range (c : ascii) (s : string) (from : Z) :
  indexByteFrom from c s = -1
  \/ (from <= indexByteFrom from c s < from + len s).
Proof.
  revert from; induction s as [|a s IH]; intros from; simpl.
  - now left.
  - unfold len in *. simpl String.length. rewrite Nat2Z.inj_succ.
    destruct (Ascii.eqb a c).
    + right. lia.
    + destruct (IH (from + 1)) as [H|H]; [now left | right; lia].
Qed.

Lemma ContainsRune_false (s : string) (c : ascii) :
  ContainsRune s c = false -> IndexRune s c = -1.
Proof.
  unfold ContainsRune, IndexRune. intros H.
  apply Z.leb_gt in H.
  destruct (indexByteFrom_range c s 0) as [H0|H0]; lia.
Qed.

Lemma ContainsRune_true (s : string) (c : ascii) :
  ContainsRune s c = true -> 0 <= IndexRune s c < len s.
Proof.
  unfold ContainsRune, IndexRune. intros H.
  apply Z.leb_le in H.
  destruct (indexByteFrom_range c s 0) as [H0|H0]; lia.
Qed.

Lemma string_eqb_false (a b : string) : String.eqb a b = false -> a <> b.
Proof. intros H Heq. apply String.eqb_eq in Heq. congruence. Qed.

End StringFacts.

(** ** [splitHostname] *)

(** A name without a slash is a repository of the default registry, with the
    prefix of the official images. *)
Lemma splitHostname_no_slash (n : string) :
  ContainsRune n "/" = false ->
  splitHostname n = (DefaultRegistryHostname, DefaultRepoPrefix ++ n).
Proof.
  intros Hn. unfold splitHostname.
  rewrite (ContainsRune_false _ _ Hn). simpl (-1 =? -1). cbv iota beta.
  simpl orb. cbv iota beta.
  change (String.eqb DefaultRegistryHostname WrongRegistryHostname) with false.
  cbv iota.
  change (String.eqb DefaultRegistryHostname DefaultRegistryHostname) with true.
  rewrite Hn. reflexivity.
Qed.

(** The hostname that [splitHostname] returns is never the alias. *)
Lemma splitHostname_not_alias (name : string) :
  fst (splitHostname name) <> WrongRegistryHostname.
Proof.
  unfold splitHostname.
  destruct ((IndexRune name "/" =? -1)
            || (negb (ContainsAny (sliceTo name (IndexRune name "/")) ".:")
                && negb (String.eqb (sliceTo name (IndexRune name "/")) "localhost")))%bool.
  - simpl. discriminate.
  - destruct (String.eqb (sliceTo name (IndexRune name "/")) WrongRegistryHostname) eqn:Hw;
      simpl.
    + discriminate.
    + now apply string_eqb_false.
Qed.

(** C1. For every valid name-only input [n] (lowercase, a single segment, no
    '/', no '.' or ':', not "localhost"), [splitHostname n] returns the
    hostname "index.docker.io" and the remote name "library/" followed by
    [n]. *)
Theorem C1_splitHostname_name_only {E : Env} (n : string) :
  validNameOnly n ->
  splitHostname n = ("index.docker.io", "library/" ++ n).
Proof.
  intros (_ & Hslash & _ & _).
  exact (splitHostname_no_slash n Hslash).
Qed.

Lemma C1_splitHostname_name_only_witness :
  @validNameOnly StdEnv.env "ubuntu"
  /\ splitHostname "ubuntu" = ("index.docker.io", "library/ubuntu").
Proof.
  assert (H : @validNameOnly StdEnv.env "ubuntu").
  { repeat split; try reflexivity. discriminate. }
  split; [exact H | exact (@C1_splitHostname_name_only StdEnv.env "ubuntu" H)].
Defined.

(** ** The facade: [Reference], [Parse], [ParseRepo] *)

Section FacadeFacts.

Context {E : Env}.

Lemma Parse_unfold (remote : string) :
  Parse remote =
  match ParseNamed (clean remote) with
  | Err err => Err err
  | Ok n => Ok {| named := WithDefaultTag n; tag := suffixOf (WithDefaultTag n) |}
  end.
Proof. reflexivity. Qed.

Lemma Parse_inv (remote : string) (ref : Reference) :
  Parse remote = Ok ref ->
  exists n, ParseNamed (clean remote) = Ok n
            /\ ref = {| named := WithDefaultTag n; tag := suffixOf (WithDefaultTag n) |}.
Proof.
  rewrite Parse_unfold. destruct (ParseNamed (clean remote)) as [n|e]; intros H.
  - exists n. split; [reflexivity | congruence].
  - discriminate.
Qed.

(** The suffix of a parsed reference is empty or begins with its
    separator. *)
Lemma suffixOf_shape (n : Named) :
  suffixOf n = EmptyString
  \/ (exists t, suffixOf n = ":" ++ t)
  \/ (exists d, suffixOf n = "@" ++ d).
Proof.
  unfold suffixOf. destruct (asCanonical n) as [d|].
  - right; right; now exists d.
  - destruct (asNamedTagged n) as [t|]; [right; left; now exists t | now left].
Qed.

(** [Tag()] drops the first byte of a non-empty suffix, whatever it is. *)
Lemma Reference_Tag_cons (n : Named) (c : ascii) (t : string) :
  Reference_Tag {| named := n; tag := String c t |} = t.
Proof.
  unfold Reference_Tag, len, sliceFrom; simpl tag.
  destruct t as [|a t]; [reflexivity|].
  simpl String.length. rewrite !Nat2Z.inj_succ.
  destruct (Z.ltb_spec 1 (Z.succ (Z.succ (Z.of_nat (String.length t))))); [reflexivity | lia].
Qed.

Lemma Reference_Tag_empty (n : Named) :
  Reference_Tag {| named := n; tag := EmptyString |} = EmptyString.
Proof. reflexivity. Qed.

Lemma Named_Hostname_eq (n : Named) :
  Named_Hostname n = option_map (fun name => fst (splitHostname name)) (Named_Name n).
Proof.
  unfold Named_Hostname. destruct (Named_Name n) as [name|]; simpl; [|reflexivity].
  now destruct (splitHostname name).
Qed.

Lemma Named_RemoteName_eq (n : Named) :
  Named_RemoteName n = option_map (fun name => snd (splitHostname name)) (Named_Name n).
Proof.
  unfold Named_RemoteName. destruct (Named_Name n) as [name|]; simpl; [|reflexivity].
  now destruct (splitHostname name).
Qed.

Lemma Named_FullName_eq (n : Named) :
  Named_FullName n =
  option_map (fun name => fst (splitHostname name) ++ "/" ++ snd (splitHostname name))
             (Named_Name n).
Proof.
  unfold Named_FullName. destruct (Named_Name n) as [name|]; simpl; [|reflexivity].
  now destruct (splitHostname name).
Qed.

Lemma Named_Name_nil (n : Named) : Named_Name n = None -> n = nilNamed.
Proof. destruct n; simpl; congruence. Qed.

(** How [ParseRepo] relates to [Parse], without any assumption on the
    environment: the same error, or a record with the accessors of the
    reference; [ParseRepo] panics only on a reference whose [named] is
    [nil]. *)
Lemma ParseRepo_Parse (remote : string) :
  match Parse remote, ParseRepo remote with
  | Err e, Some (Err e') => e = e'
  | Ok ref, Some (Ok rec) => copiesAccessors ref rec
  | Ok ref, None => named ref = nilNamed
  | _, _ => False
  end.
Proof.
  unfold Parse, ParseRepo.
  destruct (ParseNamed (clean remote)) as [n|e]; [|reflexivity].
  fold (suffixOf (WithDefaultTag n)).
  set (n' := WithDefaultTag n). set (t := suffixOf n').
  unfold Reference_Name, Reference_Repository, Reference_Registry,
    Reference_Remote, Reference_ShortName. simpl named. simpl tag.
  rewrite Named_RemoteName_eq, Named_FullName_eq, Named_Hostname_eq.
  destruct (Named_Name n') as [name|] eqn:Hname; simpl.
  - unfold copiesAccessors, Reference_Name, Reference_Repository,
      Reference_Registry, Reference_Remote, Reference_ShortName; simpl.
    rewrite Named_RemoteName_eq, Named_FullName_eq, Named_Hostname_eq, Hname; simpl.
    repeat split.
  - now apply Named_Name_nil.
Qed.

(** A parsed reference has a [nil] name only when the [reference] package
    has refused the default tag. *)
Lemma Parse_named_not_nil (remote : string) (ref : Reference) :
  acceptsDefaultTag -> Parse remote = Ok ref -> named ref <> nilNamed.
Proof.
  intros Hdef HP. apply Parse_inv in HP as (n & HN & ->). simpl.
  assert (Hn : n <> nilNamed).
  { unfold ParseNamed in HN.
    destruct (reference_ParseNormalizedNamed (clean remote)) as [g|]; [|discriminate].
    unfold WithName, WithTag, WithDigest, bind in HN.
    destruct (normalize (libName g)); [|discriminate].
    destruct (validateName a); [discriminate|].
    destruct (reference_WithName a); [|discriminate].
    destruct (libDigest g).
    - destruct (reference_WithDigest _ _); [|discriminate]. congruence.
    - destruct (libTag g).
      + destruct (reference_WithTag _ _); [|discriminate]. congruence.
      + congruence. }
  unfold WithDefaultTag. destruct (IsNameOnly n); [|exact Hn].
  unfold WithTag, bind. destruct (Hdef n Hn) as [r ->]. discriminate.
Qed.

End FacadeFacts.

(** C2 (amended). For every [Reference] produced by [Parse], the suffix is
    empty, or ':' followed by a tag, or '@' followed by a digest; [Tag()]
    returns the empty string for the empty suffix, and otherwise the suffix
    without its first byte: the tag after ':', and the digest after '@'. *)
Theorem C2_Tag_drops_separator {E : Env} (remote : string) (ref : Reference) :
  Parse remote = Ok ref ->
  (tag ref = EmptyString \/ (exists t, tag ref = ":" ++ t) \/ (exists d, tag ref = "@" ++ d))
  /\ (tag ref = EmptyString -> Reference_Tag ref = EmptyString)
  /\ (forall t, tag ref = ":" ++ t -> Reference_Tag ref = t)
  /\ (forall d, tag ref = "@" ++ d -> Reference_Tag ref = d).
Proof.
  intros HP. apply Parse_inv in HP as (n & _ & ->). simpl tag.
  split; [apply suffixOf_shape|].
  repeat split.
  - intros ->. reflexivity.
  - intros t ->. apply Reference_Tag_cons.
  - intros d ->. apply Reference_Tag_cons.
Qed.

Lemma C2_Tag_drops_separator_witness :
  exists ref, @Parse StdEnv.env "debian:8.2" = Ok ref
              /\ tag ref = ":8.2" /\ Reference_Tag ref = "8.2".
Proof.
  destruct (@Parse StdEnv.env "debian:8.2") as [ref|e] eqn:HP.
  - exists ref. split; [reflexivity|].
    assert (Ht : tag ref = ":8.2").
    { vm_compute in HP. injection HP as <-. reflexivity. }
    split; [exact Ht|].
    exact (proj1 (proj2 (proj2 (C2_Tag_drops_separator "debian:8.2" ref HP))) "8.2" Ht).
  - vm_compute in HP. discriminate HP.
Defined.

(** C2 as stated fails: parsing a reference with a digest gives a suffix that
    begins with '@', and [Tag()] returns the digest, not the empty string. *)
Lemma C2_counterexample :
  match @Parse StdEnv.env
          "debian@sha256:0123456789abcdef0123456789abcdef0123456789abcdef0123456789abcdef"
  with
  | Ok ref =>
      HasPrefix (tag ref) "@" = true
      /\ Reference_Tag ref
         = "sha256:0123456789abcdef0123456789abcdef0123456789abcdef0123456789abcdef"
      /\ Reference_Tag ref <> EmptyString
  | Err _ => False
  end.
Proof. vm_compute. repeat split; discriminate. Qed.

(** ** The concrete environment meets the assumptions made on the
    [reference] package *)

Lemma StdEnv_acceptsDefaultTag : @acceptsDefaultTag StdEnv.env.
Proof.
  intros n Hn. simpl. unfold StdEnv.WithTag.
  change (StdEnv.tagOK DefaultTag) with true. simpl negb. cbv iota.
  destruct n as [|r|r|r]; simpl; [congruence | eauto ..].
Qed.

Lemma StdEnv_keepsName : @keepsName StdEnv.env.
Proof.
  repeat split.
  - intros s r. simpl. unfold StdEnv.WithName.
    destruct (255 <? len s); [discriminate|].
    destruct (StdEnv.nameOK s); [|discriminate].
    intros H; injection H as <-. reflexivity.
  - intros n t r. simpl. unfold StdEnv.WithTag.
    destruct (negb (StdEnv.tagOK t)); [discriminate|].
    destruct (Named_Name n) as [path|]; [|discriminate].
    destruct (asCanonical n); intros H; injection H as <-; reflexivity.
  - intros n d r. simpl. unfold StdEnv.WithDigest.
    destruct (negb (StdEnv.digestOK d)); [discriminate|].
    destruct (Named_Name n) as [path|]; [|discriminate].
    destruct (asNamedTagged n); intros H; injection H as <-; reflexivity.
Qed.

(** ** [ParseRepo] *)

(** C4 (amended). For every remote string on which [ParseRepo] succeeds, the
    [Scheme] field of the returned record is the empty string: the record
    literal of [ParseRepo] does not set it, and the constant
    [DefaultScheme] is not used. *)
Theorem C4_ParseRepo_Scheme_empty {E : Env} (remote : string) (rec : Repository) :
  ParseRepo remote = Some (Ok rec) ->
  Repository_Scheme rec = EmptyString /\ Repository_Scheme rec <> DefaultScheme.
Proof.
  unfold ParseRepo.
  destruct (ParseNamed (clean remote)) as [n|e]; [|discriminate].
  unfold andThen.
  destruct (Reference_Name _); [|discriminate].
  destruct (Reference_Repository _); [|discriminate].
  destruct (Reference_Registry _); [|discriminate].
  destruct (Reference_Remote _); [|discriminate].
  destruct (Reference_ShortName _); [|discriminate].
  intros H. injection H as <-. simpl. split; [reflexivity | discriminate].
Qed.

Lemma C4_ParseRepo_Scheme_empty_witness :
  exists rec, @ParseRepo StdEnv.env "ubuntu" = Some (Ok rec)
              /\ Repository_Scheme rec = EmptyString.
Proof.
  destruct (@ParseRepo StdEnv.env "ubuntu") as [[rec|e]|] eqn:HP.
  - exists rec. split; [reflexivity|].
    exact (proj1 (C4_ParseRepo_Scheme_empty "ubuntu" rec HP)).
  - vm_compute in HP. discriminate HP.
  - vm_compute in HP. discriminate HP.
Defined.

(** C4 as stated fails: [ParseRepo] succeeds on "ubuntu" and the [Scheme]
    of the record is not "https". *)
Lemma C4_counterexample :
  match @ParseRepo StdEnv.env "ubuntu" with
  | Some (Ok rec) =>
      Repository_Registry rec = "index.docker.io"
      /\ Repository_Scheme rec = EmptyString
      /\ Repository_Scheme rec <> "https"
  | _ => False
  end.
Proof. vm_compute. repeat split; discriminate. Qed.

(** C10. [ParseRepo] is [Parse] followed by a field-wise copy, when the
    [reference] package accepts the default tag: [ParseRepo remote] returns
    an error exactly when [Parse remote] does, and the same one; and it
    returns a record exactly when [Parse remote] returns a reference, the
    fields [Name], [Repository], [Registry], [Remote], [ShortName] and [Tag]
    then being the results of the accessors of that reference. *)
Theorem C10_ParseRepo_copies_Parse {E : Env} (remote : string) :
  acceptsDefaultTag ->
  (forall e, Parse remote = Err e <-> ParseRepo remote = Some (Err e))
  /\ (forall ref, Parse remote = Ok ref ->
        exists rec, ParseRepo remote = Some (Ok rec) /\ copiesAccessors ref rec)
  /\ (forall rec, ParseRepo remote = Some (Ok rec) ->
        exists ref, Parse remote = Ok ref /\ copiesAccessors ref rec).
Proof.
  intros Hdef.
  pose proof (ParseRepo_Parse remote) as H.
  pose proof (fun ref => Parse_named_not_nil remote ref Hdef) as Hnil.
  destruct (Parse remote) as [ref|e], (ParseRepo remote) as [[rec|e']|];
    try contradiction.
  - repeat split; try discriminate.
    + intros ref' Heq; injection Heq as <-. now exists rec.
    + intros rec' Heq; injection Heq as <-. now exists ref.
  - exfalso. exact (Hnil ref eq_refl H).
  - subst e'. repeat split; try discriminate; congruence.
Qed.

Lemma C10_ParseRepo_copies_Parse_witness :
  exists ref rec,
    @Parse StdEnv.env "myregistry.local:5000/team/app:1.2" = Ok ref
    /\ @ParseRepo StdEnv.env "myregistry.local:5000/team/app:1.2" = Some (Ok rec)
    /\ copiesAccessors ref rec
    /\ Repository_Registry rec = "myregistry.local:5000".
Proof.
  destruct (@Parse StdEnv.env "myregistry.local:5000/team/app:1.2") as [ref|e] eqn:HP.
  - destruct (proj1 (proj2 (C10_ParseRepo_copies_Parse
                 "myregistry.local:5000/team/app:1.2" StdEnv_acceptsDefaultTag))
               ref HP) as (rec & HR & Hc).
    exists ref, rec. repeat split; try assumption; try apply Hc.
    vm_compute in HR. injection HR as <-. reflexivity.
  - vm_compute in HP. discriminate HP.
Defined.

(** ** Names through the construction *)

Section NameFacts.

Context {E : Env}.

Lemma WithName_inv (name : string) (n : Named) :
  WithName name = Ok n ->
  exists v r, normalize name = Ok v /\ ValidateID v = false
              /\ reference_WithName v = Ok r /\ n = namedRef r.
Proof.
  unfold WithName, bind, validateName.
  destruct (normalize name) as [v|]; [|discriminate].
  destruct (ValidateID v) eqn:Hid; [discriminate|].
  destruct (reference_WithName v) as [r|] eqn:Hr; [|discriminate].
  intros H; injection H as <-. now exists v, r.
Qed.

Lemma WithTag_inv (name : Named) (t : string) (n : Named) :
  WithTag name t = Ok n ->
  exists r, reference_WithTag name t = Ok r /\ n = taggedRef r.
Proof.
  unfold WithTag, bind. destruct (reference_WithTag name t) as [r|]; [|discriminate].
  intros H; injection H as <-. now exists r.
Qed.

Lemma WithDigest_inv (name : Named) (d : Digest) (n : Named) :
  WithDigest name d = Ok n ->
  exists r, reference_WithDigest name d = Ok r /\ n = canonicalRef r.
Proof.
  unfold WithDigest, bind. destruct (reference_WithDigest name d) as [r|]; [|discriminate].
  intros H; injection H as <-. now exists r.
Qed.

(** The name stored by [ParseNamed] is the normalised form of the name that
    the grammar extracted. *)
Lemma ParseNamed_Name (s : string) (g : LibNamed) (n : Named) :
  keepsName ->
  reference_ParseNormalizedNamed s = Ok g ->
  ParseNamed s = Ok n ->
  exists v, normalize (libName g) = Ok v /\ Named_Name n = Some v.
Proof.
  intros (Kn & Kt & Kd) Hg. unfold ParseNamed. rewrite Hg.
  destruct (WithName (libName g)) as [r|] eqn:Hw; [|discriminate]. simpl bind.
  apply WithName_inv in Hw as (v & r0 & Hv & _ & Hr & ->).
  apply Kn in Hr. exists v. split; [exact Hv|].
  destruct (libDigest g) as [d|].
  - apply WithDigest_inv in H as (c & Hc & ->).
    apply Kd in Hc. simpl in *. congruence.
  - destruct (libTag g) as [t|].
    + apply WithTag_inv in H as (c & Hc & ->).
      apply Kt in Hc. simpl in *. congruence.
    + injection H as <-. simpl. congruence.
Qed.

(** [WithDefaultTag] keeps the name, or returns [nil]. *)
Lemma WithDefaultTag_Name (n : Named) :
  keepsName ->
  WithDefaultTag n = nilNamed \/ Named_Name (WithDefaultTag n) = Named_Name n.
Proof.
  intros (_ & Kt & _). unfold WithDefaultTag.
  destruct (IsNameOnly n); [|now right].
  destruct (WithTag n DefaultTag) as [n'|] eqn:Ht; [|now left].
  apply WithTag_inv in Ht as (r & Hr & ->). apply Kt in Hr.
  right. simpl. congruence.
Qed.

(** The registry of a parsed reference is the hostname that
    [splitHostname] derives from the stored name. *)
Lemma Parse_Registry (remote : string) (g : LibNamed) (ref : Reference) :
  keepsName -> acceptsDefaultTag ->
  reference_ParseNormalizedNamed (clean remote) = Ok g ->
  Parse remote = Ok ref ->
  exists v, normalize (libName g) = Ok v
            /\ Reference_Registry ref = Some (fst (splitHostname v)).
Proof.
  intros K Hdef Hg HP.
  pose proof (Parse_named_not_nil remote ref Hdef HP) as Hnil.
  apply Parse_inv in HP as (n & HN & ->). simpl in Hnil.
  destruct (ParseNamed_Name _ g n K Hg HN) as (v & Hv & Hname).
  exists v. split; [exact Hv|].
  unfold Reference_Registry. simpl named. rewrite Named_Hostname_eq.
  destruct (WithDefaultTag_Name n K) as [Hn|Hn]; [contradiction|].
  now rewrite Hn, Hname.
Qed.

Lemma WithDefaultTag_fixed (n : Named) :
  IsNameOnly n = false -> WithDefaultTag n = n.
Proof. unfold WithDefaultTag. now intros ->. Qed.

Lemma IsNameOnly_taggedRef (r : LibTagged) : IsNameOnly (taggedRef r) = false.
Proof. reflexivity. Qed.

Lemma IsNameOnly_canonicalRef (r : LibCanonical) : IsNameOnly (canonicalRef r) = false.
Proof. reflexivity. Qed.

End NameFacts.

(** C5. The derived hostname is never the alias "docker.io": [splitHostname]
    never returns it, so the registry of a parsed reference is never it; and
    when the [reference] package keeps names, accepts the default tag and
    the name "ubuntu", and its grammar reads "docker.io/library/ubuntu" as a
    bare name, [Parse "docker.io/library/ubuntu"] returns a reference whose
    [Registry()] is "index.docker.io". *)
Theorem C5_hostname_never_alias {E : Env} :
  (forall name, fst (splitHostname name) <> "docker.io")
  /\ (forall remote ref h,
        Parse remote = Ok ref -> Reference_Registry ref = Some h -> h <> "docker.io")
  /\ (keepsName -> acceptsDefaultTag ->
      forall g r,
        reference_ParseNormalizedNamed "docker.io/library/ubuntu" = Ok g ->
        libName g = "docker.io/library/ubuntu" ->
        libTag g = None -> libDigest g = None ->
        ValidateID "ubuntu" = false ->
        reference_WithName "ubuntu" = Ok r ->
        exists ref, Parse "docker.io/library/ubuntu" = Ok ref
                    /\ Reference_Registry ref = Some "index.docker.io").
Proof.
  split; [exact splitHostname_not_alias|]. split.
  - intros remote ref h _. unfold Reference_Registry. rewrite Named_Hostname_eq.
    destruct (Named_Name (named ref)) as [name|]; simpl; [|discriminate].
    intros H; injection H as <-. apply splitHostname_not_alias.
  - intros K Hdef g r Hg Hname Htag Hdig Hid Hr.
    assert (HP : exists ref, Parse "docker.io/library/ubuntu" = Ok ref).
    { rewrite Parse_unfold.
      change (clean "docker.io/library/ubuntu") with "docker.io/library/ubuntu".
      unfold ParseNamed. rewrite Hg, Hname, Htag, Hdig.
      unfold WithName, validateName.
      change (normalize "docker.io/library/ubuntu") with (@Ok string "ubuntu").
      simpl bind. rewrite Hid, Hr. simpl. eauto. }
    destruct HP as (ref & HP). exists ref. split; [exact HP|].
    destruct (Parse_Registry "docker.io/library/ubuntu" g ref K Hdef Hg HP)
      as (v & Hv & Hreg).
    rewrite Hname in Hv.
    change (normalize "docker.io/library/ubuntu") with (@Ok string "ubuntu") in Hv.
    injection Hv as <-. exact Hreg.
Qed.

Lemma C5_hostname_never_alias_witness :
  exists ref, @Parse StdEnv.env "docker.io/library/ubuntu" = Ok ref
              /\ Reference_Registry ref = Some "index.docker.io".
Proof.
  refine (proj2 (proj2 (@C5_hostname_never_alias StdEnv.env))
            StdEnv_keepsName StdEnv_acceptsDefaultTag
            {| libName := "docker.io/library/ubuntu";
               libString := "docker.io/library/ubuntu";
               libTag := None; libDigest := None |}
            {| libName := "ubuntu"; libString := "ubuntu";
               libTag := None; libDigest := None |}
            _ _ _ _ _ _); vm_compute; reflexivity.
Defined.

(** ** [WithDefaultTag] *)



(** ** [WithTag] and [WithDigest] in sequence *)




(** ** The scheme prefix *)

Lemma clean_http (s : string) : clean ("http://" ++ s) = s.
Proof.
  unfold clean. rewrite HasPrefix_append. apply Replace_prefix_once.
Qed.

Lemma clean_https (s : string) : clean ("https://" ++ s) = s.
Proof.
  unfold clean.
  change (HasPrefix ("https://" ++ s) "http://") with false. cbv iota.
  rewrite HasPrefix_append. apply Replace_prefix_once.
Qed.

(** C8 (amended). The scheme prefix is stripped by [clean], which [Parse]
    and [ParseRepo] apply before [ParseNamed]: [clean] removes a leading
    "http://" or "https://"; [Parse] gives the same result with either
    prefix, and, for a string that [clean] leaves as it is, the same result
    as without prefix, as does [ParseRepo].  [ParseNamed] hands its argument
    to the grammar as it is: the error it builds carries that argument. *)
Theorem C8_scheme_stripped_by_clean {E : Env} (s : string) :
  clean ("http://" ++ s) = s
  /\ clean ("https://" ++ s) = s
  /\ Parse ("http://" ++ s) = Parse ("https://" ++ s)
  /\ (clean s = s ->
      Parse ("http://" ++ s) = Parse s
      /\ Parse ("https://" ++ s) = Parse s
      /\ ParseRepo ("http://" ++ s) = ParseRepo s
      /\ ParseRepo ("https://" ++ s) = ParseRepo s)
  /\ (forall e, reference_ParseNormalizedNamed s = Err e ->
                ParseNamed s = Err (ErrParsing s e)).
Proof.
  split; [apply clean_http|]. split; [apply clean_https|]. split.
  - rewrite !Parse_unfold, clean_http, clean_https. reflexivity.
  - split.
    + intros Hs. unfold ParseRepo. rewrite !Parse_unfold, clean_http, clean_https, Hs.
      repeat split.
    + intros e He. unfold ParseNamed. now rewrite He.
Qed.

Lemma C8_scheme_stripped_by_clean_witness :
  clean "ubuntu" = "ubuntu"
  /\ @Parse StdEnv.env "https://ubuntu" = @Parse StdEnv.env "ubuntu"
  /\ @ParseRepo StdEnv.env "http://ubuntu" = @ParseRepo StdEnv.env "ubuntu".
Proof.
  pose proof (proj1 (proj2 (proj2 (proj2 (@C8_scheme_stripped_by_clean StdEnv.env "ubuntu"))))
                eq_refl) as (_ & H1 & H2 & _).
  split; [reflexivity|]. split; [exact H1 | exact H2].
Defined.

(** C8 as stated fails: [ParseNamed] does not strip the scheme.  With the
    prefix the grammar refuses the string, without it the name is built. *)
Lemma C8_counterexample :
  @ParseNamed StdEnv.env "https://ubuntu"
  = Err (ErrParsing "https://ubuntu" StdEnv.invalidFormat)
  /\ @ParseNamed StdEnv.env "ubuntu"
     = Ok (namedRef {| libName := "ubuntu"; libString := "ubuntu";
                       libTag := None; libDigest := None |})
  /\ @ParseNamed StdEnv.env "https://ubuntu" <> @ParseNamed StdEnv.env "ubuntu".
Proof. vm_compute. repeat split; discriminate. Qed.

(** ** [normalize] *)

Lemma normalize_not_lowercase {E : Env} (x : string) :
  notLowercasePath x -> normalize x = Err ErrNotLowercase.
Proof.
  unfold notLowercasePath, normalize.
  destruct (splitHostname x) as [host remoteName]. simpl snd. intros H.
  destruct (String.eqb (ToLower remoteName) remoteName) eqn:Heq; [|reflexivity].
  apply String.eqb_eq in Heq. contradiction.
Qed.



(** C3. [normalize] is not idempotent.  On "library/library/foo" it succeeds
    with "library/foo", and on "library/foo" it succeeds with "foo": the
    second application changes the value again. *)
Theorem C3_normalize_not_idempotent {E : Env} :
  normalize "library/library/foo" = Ok "library/foo"
  /\ normalize "library/foo" = Ok "foo"
  /\ normalize "library/foo" <> Ok "library/foo".
Proof. repeat split. discriminate. Qed.


(** * Further properties of the code *)

(** ** Finding the first slash *)

Section IndexFacts.

Lemma indexByteFrom_shift (c : ascii) (s : string) (from : Z) :
  indexByteFrom from c s
  = if indexByteFrom 0 c s =? -1 then -1 else from + indexByteFrom 0 c s.
Proof.
  revert from. induction s as [|a s IH]; intros from; simpl; [reflexivity|].
  destruct (Ascii.eqb a c); simpl; [lia|].
  rewrite (IH (from + 1)), (IH 1).
  destruct (indexByteFrom_range c s 0) as [H|H].
  - rewrite H. reflexivity.
  - destruct (Z.eqb_spec (indexByteFrom 0 c s) (-1)); [lia|].
    destruct (Z.eqb_spec (1 + indexByteFrom 0 c s) (-1)); lia.
Qed.

(** The first occurrence of [c] in [p ++ c :: r], when [p] is free of [c],
    is at [len p]. *)
Lemma IndexRune_append (c : ascii) (p r : string) :
  ContainsRune p c = false ->
  IndexRune (p ++ String c r) c = len p.
Proof.
  unfold ContainsRune, IndexRune, len. intros H. apply Z.leb_gt in H.
  induction p as [|a p IH]; simpl.
  - now rewrite Ascii.eqb_refl.
  - simpl in H. destruct (Ascii.eqb a c) eqn:Hac; [lia|].
    rewrite (indexByteFrom_shift c p 1) in H.
    rewrite (indexByteFrom_shift c (p ++ String c r) 1).
    destruct (Z.eqb_spec (indexByteFrom 0 c p) (-1)) as [Hp|Hp].
    + rewrite IH by lia.
      destruct (Z.eqb_spec (Z.of_nat (String.length p)) (-1)); lia.
    + destruct (indexByteFrom_range c p 0); lia.
Qed.

(** A string with an occurrence of [c] splits at the first one. *)
Lemma IndexRune_split (c : ascii) (s : string) :
  ContainsRune s c = true ->
  exists p r, s = p ++ String c r
              /\ ContainsRune p c = false
              /\ IndexRune s c = len p.
Proof.
  unfold ContainsRune, IndexRune, len.
  induction s as [|a s IH]; simpl; intros H.
  - discriminate.
  - destruct (Ascii.eqb a c) eqn:Hac.
    + apply Ascii.eqb_eq in Hac; subst a.
      exists EmptyString, s. repeat split.
    + rewrite (indexByteFrom_shift c s 1) in H.
      destruct (Z.eqb_spec (indexByteFrom 0 c s) (-1)) as [Hs|Hs];
        [discriminate|].
      destruct (indexByteFrom_range c s 0) as [Hr|Hr]; [contradiction|].
      destruct IH as (p & r & -> & Hp & Hi); [apply Z.leb_le; lia|].
      exists (String a p), r. repeat split.
      * simpl. rewrite Hac.
        rewrite (indexByteFrom_shift c p 1).
        apply Z.leb_gt in Hp.
        destruct (indexByteFrom_range c p 0) as [Hq|Hq]; [|lia].
        now rewrite Hq.
      * rewrite (indexByteFrom_shift c (p ++ String c r) 1).
        destruct (Z.eqb_spec (indexByteFrom 0 c (p ++ String c r)) (-1)); [lia|].
        rewrite Hi. simpl String.length. lia.
Qed.

Lemma ContainsRune_append (c : ascii) (p r : string) :
  ContainsRune (p ++ String c r) c = true.
Proof.
  unfold ContainsRune, IndexRune.
  induction p as [|a p IH]; simpl.
  - now rewrite Ascii.eqb_refl.
  - destruct (Ascii.eqb a c); [reflexivity|].
    rewrite (indexByteFrom_shift c (p ++ String c r) 1). apply Z.leb_le in IH.
    destruct (Z.eqb_spec (indexByteFrom 0 c (p ++ String c r)) (-1)); [lia|].
    apply Z.leb_le. lia.
Qed.

Lemma sliceTo_append (p r : string) : sliceTo (p ++ r) (len p) = p.
Proof. apply sliceTo_len_append. Qed.

Lemma sliceFrom_append_succ (c : ascii) (p r : string) :
  sliceFrom (p ++ String c r) (len p + 1) = r.
Proof.
  unfold sliceFrom, len.
  replace (Z.to_nat (Z.of_nat (String.length p) + 1)) with (S (String.length p)) by lia.
  induction p as [|a p IH]; simpl; [reflexivity | exact IH].
Qed.

End IndexFacts.

(** ** [splitHostname], case by case *)

(** [splitHostname] on a name with a slash, [p] being the segment before the
    first slash. *)
Lemma splitHostname_slash (p r : string) :
  ContainsRune p "/" = false ->
  splitHostname (p ++ "/" ++ r) =
  if hostLike p then
    let h := if String.eqb p WrongRegistryHostname
             then DefaultRegistryHostname else p in
    (h, if String.eqb h DefaultRegistryHostname && negb (ContainsRune r "/")
        then DefaultRepoPrefix ++ r else r)
  else (DefaultRegistryHostname, p ++ "/" ++ r).
Proof.
  intros Hp. unfold splitHostname.
  change ("/" ++ r) with (String "/" r).
  rewrite (IndexRune_append "/" p r Hp), sliceTo_append, sliceFrom_append_succ.
  assert (Hlen : (len p =? -1) = false) by (apply Z.eqb_neq; unfold len; lia).
  rewrite Hlen. simpl orb.
  unfold hostLike. rewrite <- negb_orb.
  destruct (ContainsAny p ".:" || String.eqb p "localhost")%bool; simpl negb; cbv iota.
  - reflexivity.
  - change (String.eqb DefaultRegistryHostname WrongRegistryHostname) with false.
    cbv iota.
    change (String.eqb DefaultRegistryHostname DefaultRegistryHostname) with true.
    rewrite ContainsRune_append. reflexivity.
Qed.

Lemma ContainsRune_prefix_library (s : string) :
  ContainsRune (DefaultRepoPrefix ++ s) "/" = true.
Proof. exact (ContainsRune_append "/" "library" s). Qed.

(** [splitHostname] is one of four cases.  A name without a slash is
    an official image of the default registry.  Otherwise let [p] be the
    segment before the first slash and [r] the rest: when [p] does not look
    like a host (no '.', no ':', not "localhost") the whole name is the
    remote name under the default registry; when [p] is "docker.io" or
    "index.docker.io" the registry is the default one and [r] the remote
    name, prefixed with "library/" if it is a single segment; in every other
    case the result is [(p, r)]. *)
Lemma splitHostname_analysis (name : string) :
  (ContainsRune name "/" = false
   /\ splitHostname name = ("index.docker.io", "library/" ++ name))
  \/ (exists p r,
        name = p ++ "/" ++ r /\ ContainsRune p "/" = false
        /\ ((hostLike p = false
             /\ splitHostname name = ("index.docker.io", name))
            \/ (hostLike p = true
                /\ (p = "docker.io" \/ p = "index.docker.io")
                /\ splitHostname name
                   = ("index.docker.io",
                      if ContainsRune r "/" then r else "library/" ++ r))
            \/ (hostLike p = true
                /\ p <> "docker.io" /\ p <> "index.docker.io"
                /\ splitHostname name = (p, r)))).
Proof.
  destruct (ContainsRune name "/") eqn:Hs.
  - right. destruct (IndexRune_split "/" name Hs) as (p & r & -> & Hp & _).
    exists p, r. change (String "/" r) with ("/" ++ r).
    split; [reflexivity|]. split; [exact Hp|].
    rewrite (splitHostname_slash p r Hp).
    destruct (hostLike p); [right | left; now split].
    destruct (String.eqb p WrongRegistryHostname) eqn:Hw.
    + left. apply String.eqb_eq in Hw. split; [reflexivity|]. split; [now left|].
      cbv zeta.
      change (String.eqb DefaultRegistryHostname DefaultRegistryHostname) with true.
      now destruct (ContainsRune r "/").
    + destruct (String.eqb p DefaultRegistryHostname) eqn:Hd; cbv zeta; rewrite Hd.
      * left. apply String.eqb_eq in Hd. split; [reflexivity|]. split; [now right|].
        subst p. now destruct (ContainsRune r "/").
      * right. apply string_eqb_false in Hw, Hd. now repeat split.
  - left. split; [reflexivity|]. exact (splitHostname_no_slash name Hs).
Qed.

(** The hostname that [splitHostname] returns has no slash and looks like a
    host. *)
Lemma splitHostname_host_shape (name : string) :
  ContainsRune (fst (splitHostname name)) "/" = false
  /\ hostLike (fst (splitHostname name)) = true.
Proof.
  destruct (splitHostname_analysis name)
    as [(_ & ->) | (p & r & _ & Hp & [(_ & ->) | [(_ & _ & ->) | (Hh & _ & _ & ->)]])];
    simpl fst; try (split; reflexivity).
  now split.
Qed.

(** Under the default registry the remote name has at least two
    segments: whenever [splitHostname] returns "index.docker.io", the
    remote name it returns contains a slash. *)
Lemma splitHostname_default_slash (name : string) :
  fst (splitHostname name) = "index.docker.io" ->
  ContainsRune (snd (splitHostname name)) "/" = true.
Proof.
  destruct (splitHostname_analysis name)
    as [(_ & ->) | (p & r & Hn & Hp & [(_ & ->) | [(_ & _ & ->) | (_ & _ & Hd & ->)]])];
    simpl fst; simpl snd; intros Hfst.
  - apply ContainsRune_prefix_library.
  - subst name. apply ContainsRune_append.
  - destruct (ContainsRune r "/") eqn:Hr; [exact Hr|].
    apply ContainsRune_prefix_library.
  - contradiction.
Qed.


(** Splitting is stable on its own output: for the hostname [h] and the
    remote name [r] that [splitHostname] returns, splitting the full name
    [h/r] gives [h] and [r] again. *)
Lemma splitHostname_resplit (name : string) :
  splitHostname (fst (splitHostname name) ++ "/" ++ snd (splitHostname name))
  = splitHostname name.
Proof.
  destruct (splitHostname_host_shape name) as (Hslash & Hhost).
  pose proof (splitHostname_not_alias name) as Halias.
  pose proof (splitHostname_default_slash name) as Hdef.
  destruct (splitHostname name) as [h r]. simpl fst in *. simpl snd in *.
  rewrite (splitHostname_slash h r Hslash), Hhost.
  destruct (String.eqb h WrongRegistryHostname) eqn:Hw.
  - apply String.eqb_eq in Hw. contradiction.
  - cbv zeta. destruct (String.eqb h DefaultRegistryHostname) eqn:Hd; [|reflexivity].
    apply String.eqb_eq in Hd. rewrite (Hdef Hd). reflexivity.
Qed.

(** An explicit registry is kept as it is: when the segment [p] before
    the first slash looks like a host and is neither "docker.io" nor
    "index.docker.io", [splitHostname] returns [p] and the rest, and the two
    put together are the name again. *)
Lemma splitHostname_explicit (p r : string) :
  ContainsRune p "/" = false -> hostLike p = true ->
  p <> "docker.io" -> p <> "index.docker.io" ->
  splitHostname (p ++ "/" ++ r) = (p, r)
  /\ Named_FullName (namedRef {| libName := p ++ "/" ++ r; libString := p ++ "/" ++ r;
                                libTag := None; libDigest := None |})
     = Some (p ++ "/" ++ r).
Proof.
  intros Hp Hh Hw Hd.
  assert (Hs : splitHostname (p ++ "/" ++ r) = (p, r)).
  { rewrite (splitHostname_slash p r Hp), Hh.
    destruct (String.eqb p WrongRegistryHostname) eqn:Ew;
      [apply String.eqb_eq in Ew; contradiction|].
    cbv zeta.
    destruct (String.eqb p DefaultRegistryHostname) eqn:Ed;
      [apply String.eqb_eq in Ed; contradiction|].
    reflexivity. }
  split; [exact Hs|].
  unfold Named_FullName, andThen, Named_Name. cbn [libName]. now rewrite Hs.
Qed.


(** ** [normalize], case by case *)

Section NormalizeFacts.

Context {E : Env}.

Lemma normalize_official (x n : string) :
  splitHostname x = (DefaultRegistryHostname, DefaultRepoPrefix ++ n) ->
  ToLower (DefaultRepoPrefix ++ n) = DefaultRepoPrefix ++ n ->
  normalize x = Ok n.
Proof.
  intros Hs Hl. unfold normalize. rewrite Hs, Hl, String.eqb_refl. simpl negb. cbv iota.
  change (String.eqb DefaultRegistryHostname DefaultRegistryHostname) with true.
  cbv iota. now rewrite HasPrefix_append, TrimPrefix_append.
Qed.

Lemma normalize_Ok_inv (x v : string) :
  normalize x = Ok v ->
  ToLower (snd (splitHostname x)) = snd (splitHostname x)
  /\ ((fst (splitHostname x) = DefaultRegistryHostname
       /\ snd (splitHostname x) = DefaultRepoPrefix ++ v)
      \/ (fst (splitHostname x) = DefaultRegistryHostname
          /\ HasPrefix (snd (splitHostname x)) DefaultRepoPrefix = false
          /\ v = snd (splitHostname x))
      \/ (fst (splitHostname x) <> DefaultRegistryHostname /\ v = x)).
Proof.
  unfold normalize. destruct (splitHostname x) as [h r]. simpl fst. simpl snd.
  destruct (String.eqb (ToLower r) r) eqn:Hl; simpl negb; cbv iota; [|discriminate].
  apply String.eqb_eq in Hl. intros H0. split; [exact Hl|]. revert H0.
  destruct (String.eqb h DefaultRegistryHostname) eqn:Hd.
  - apply String.eqb_eq in Hd.
    destruct (HasPrefix r DefaultRepoPrefix) eqn:Hp; intros H; injection H as <-.
    + left. split; [exact Hd|].
      unfold TrimPrefix. rewrite Hp. exact (HasPrefix_inv _ _ Hp).
    + right; left. now repeat split.
  - apply string_eqb_false in Hd. intros H; injection H as <-. right; right. now split.
Qed.

End NormalizeFacts.

(** X5. [normalize] fails exactly when the remote name that [splitHostname]
    derives is not lowercase, and then with the lowercase error: no other
    error comes out of it. *)
Theorem normalize_fails_iff {E : Env} (x : string) :
  (forall e, normalize x = Err e -> e = ErrNotLowercase)
  /\ ((exists e, normalize x = Err e) <-> notLowercasePath x).
Proof.
  split.
  - unfold normalize. destruct (splitHostname x) as [h r].
    destruct (negb (String.eqb (ToLower r) r)).
    + intros e H; now injection H as <-.
    + destruct (String.eqb h DefaultRegistryHostname);
        [destruct (HasPrefix r DefaultRepoPrefix)|]; discriminate.
  - split.
    + intros (e & He). revert He. unfold normalize, notLowercasePath.
      destruct (splitHostname x) as [h r]. simpl snd. intros He Heq.
      rewrite Heq, String.eqb_refl in He. simpl negb in He. cbv iota in He.
      destruct (String.eqb h DefaultRegistryHostname);
        [destruct (HasPrefix r DefaultRepoPrefix)|]; discriminate.
    + intros H. exists ErrNotLowercase. now apply normalize_not_lowercase.
Qed.

Lemma normalize_fails_iff_witness :
  @normalize StdEnv.env "example.com/Team/app" = Err ErrNotLowercase.
Proof.
  assert (H : @notLowercasePath StdEnv.env "example.com/Team/app")
    by (vm_compute; discriminate).
  destruct (proj2 (proj2 (@normalize_fails_iff StdEnv.env "example.com/Team/app")) H)
    as (e & He).
  rewrite He. f_equal.
  exact (proj1 (@normalize_fails_iff StdEnv.env "example.com/Team/app") e He).
Defined.

(** X6. The spellings of an official image have one normal form.  For a
    lowercase [n], the names [library/n], [docker.io/library/n] and
    [index.docker.io/library/n] are normalised to [n]; and when [n] is a
    single segment, so are [n] itself, [docker.io/n] and
    [index.docker.io/n]. *)
Theorem normalize_official_spellings {E : Env} (n : string) :
  ToLower ("library/" ++ n) = "library/" ++ n ->
  normalize ("library/" ++ n) = Ok n
  /\ normalize ("docker.io/library/" ++ n) = Ok n
  /\ normalize ("index.docker.io/library/" ++ n) = Ok n
  /\ (ContainsRune n "/" = false ->
      normalize n = Ok n
      /\ normalize ("docker.io/" ++ n) = Ok n
      /\ normalize ("index.docker.io/" ++ n) = Ok n).
Proof.
  intros Hl.
  assert (Hlib : ContainsRune ("library/" ++ n) "/" = true)
    by apply ContainsRune_prefix_library.
  repeat split.
  - apply normalize_official; [|exact Hl].
    exact (splitHostname_slash "library" n eq_refl).
  - apply normalize_official; [|exact Hl].
    change ("docker.io/library/" ++ n) with ("docker.io" ++ "/" ++ ("library/" ++ n)).
    rewrite (splitHostname_slash "docker.io" ("library/" ++ n) eq_refl).
    change (hostLike "docker.io") with true. cbv iota zeta.
    change (String.eqb "docker.io" WrongRegistryHostname) with true. cbv iota.
    change (String.eqb DefaultRegistryHostname DefaultRegistryHostname) with true.
    now rewrite Hlib.
  - apply normalize_official; [|exact Hl].
    change ("index.docker.io/library/" ++ n)
      with ("index.docker.io" ++ "/" ++ ("library/" ++ n)).
    rewrite (splitHostname_slash "index.docker.io" ("library/" ++ n) eq_refl).
    change (hostLike "index.docker.io") with true. cbv iota zeta.
    change (String.eqb "index.docker.io" WrongRegistryHostname) with false. cbv iota.
    change (String.eqb "index.docker.io" DefaultRegistryHostname) with true.
    now rewrite Hlib.
  - apply normalize_official; [|exact Hl].
    now apply splitHostname_no_slash.
  - apply normalize_official; [|exact Hl].
    change ("docker.io/" ++ n) with ("docker.io" ++ "/" ++ n).
    rewrite (splitHostname_slash "docker.io" n eq_refl).
    change (hostLike "docker.io") with true. cbv iota zeta.
    change (String.eqb "docker.io" WrongRegistryHostname) with true. cbv iota.
    change (String.eqb DefaultRegistryHostname DefaultRegistryHostname) with true.
    now rewrite H.
  - apply normalize_official; [|exact Hl].
    change ("index.docker.io/" ++ n) with ("index.docker.io" ++ "/" ++ n).
    rewrite (splitHostname_slash "index.docker.io" n eq_refl).
    change (hostLike "index.docker.io") with true. cbv iota zeta.
    change (String.eqb "index.docker.io" WrongRegistryHostname) with false. cbv iota.
    change (String.eqb "index.docker.io" DefaultRegistryHostname) with true.
    now rewrite H.
Qed.

Lemma normalize_official_spellings_witness :
  @normalize StdEnv.env "docker.io/library/redis" = Ok "redis"
  /\ @normalize StdEnv.env "index.docker.io/redis" = Ok "redis".
Proof.
  pose proof (@normalize_official_spellings StdEnv.env "redis" eq_refl)
    as (_ & H1 & _ & H2).
  split; [exact H1 | exact (proj2 (proj2 (H2 eq_refl)))].
Defined.

(** X7. A name with an explicit registry other than the default one is its
    own normal form, provided the part after the registry is lowercase; the
    case of the registry itself is not examined. *)
Theorem normalize_explicit_host {E : Env} (p r : string) :
  ContainsRune p "/" = false -> hostLike p = true ->
  p <> "docker.io" -> p <> "index.docker.io" ->
  ToLower r = r ->
  normalize (p ++ "/" ++ r) = Ok (p ++ "/" ++ r).
Proof.
  intros Hp Hh Hw Hd Hl.
  destruct (splitHostname_explicit p r Hp Hh Hw Hd) as (Hs & _).
  unfold normalize. rewrite Hs, Hl, String.eqb_refl. simpl negb. cbv iota.
  destruct (String.eqb p DefaultRegistryHostname) eqn:Ed; [|reflexivity].
  apply String.eqb_eq in Ed. contradiction.
Qed.

Lemma normalize_explicit_host_witness :
  @normalize StdEnv.env "Registry.Example.com:5000/team/app"
  = Ok "Registry.Example.com:5000/team/app".
Proof.
  refine (@normalize_explicit_host StdEnv.env "Registry.Example.com:5000" "team/app"
            _ _ _ _ _);
    [reflexivity | reflexivity | discriminate | discriminate | reflexivity].
Defined.

(** X8. Where [normalize] is idempotent.  When [normalize x] succeeds with a
    value [v] that is a single segment, [x] names the official image
    [index.docker.io/library/v], [v] splits as [x] does, and [normalize v]
    is [v] again; and when [x] has a registry other than the default one,
    [v] is [x] and [normalize v] is [v] again. *)
Theorem normalize_idempotent_when {E : Env} (x v : string) :
  normalize x = Ok v ->
  (ContainsRune v "/" = false ->
     splitHostname x = ("index.docker.io", "library/" ++ v)
     /\ splitHostname v = splitHostname x
     /\ normalize v = Ok v)
  /\ (fst (splitHostname x) <> "index.docker.io" -> v = x /\ normalize v = Ok v).
Proof.
  intros Hn. pose proof (normalize_Ok_inv x v Hn) as (Hl & Hc).
  pose proof (splitHostname_default_slash x) as Hslash.
  split.
  - intros Hv.
    assert (Hs : splitHostname x = (DefaultRegistryHostname, DefaultRepoPrefix ++ v)).
    { destruct Hc as [(Hh & Hr) | [(Hh & _ & Hr) | (Hh & ->)]].
      - destruct (splitHostname x); simpl in *; congruence.
      - rewrite <- Hr in Hslash. rewrite (Hslash Hh) in Hv. discriminate.
      - exfalso. apply Hh. now rewrite (splitHostname_no_slash x Hv). }
    split; [exact Hs|].
    rewrite Hs in Hl. simpl snd in Hl.
    pose proof (splitHostname_no_slash v Hv) as Hsv.
    split; [now rewrite Hsv, Hs|].
    now apply normalize_official.
  - intros Hh. destruct Hc as [(Hd & _) | [(Hd & _) | (_ & ->)]]; try contradiction.
    now split.
Qed.

Lemma normalize_idempotent_when_witness :
  @normalize StdEnv.env "docker.io/library/redis" = Ok "redis"
  /\ @normalize StdEnv.env "redis" = Ok "redis"
  /\ splitHostname "redis" = splitHostname "docker.io/library/redis".
Proof.
  assert (H : @normalize StdEnv.env "docker.io/library/redis" = Ok "redis")
    by reflexivity.
  destruct (proj1 (@normalize_idempotent_when StdEnv.env _ _ H) eq_refl)
    as (_ & H1 & H2).
  split; [exact H|]. split; [exact H2 | exact H1].
Defined.

(** ** [clean] *)

(** X9. [clean] removes at most one scheme prefix and nothing else: either
    the input begins with neither "http://" nor "https://" and is returned
    as it is, or the input is "http://" or "https://" followed by the
    result. *)
Theorem clean_strips_one_prefix (url : string) :
  (HasPrefix url "http://" = false /\ HasPrefix url "https://" = false
   /\ clean url = url)
  \/ url = "http://" ++ clean url
  \/ url = "https://" ++ clean url.
Proof.
  destruct (HasPrefix url "http://") eqn:H1.
  - right; left. apply HasPrefix_inv in H1.
    rewrite H1 at 2. now rewrite clean_http.
  - destruct (HasPrefix url "https://") eqn:H2.
    + right; right. apply HasPrefix_inv in H2.
      rewrite H2 at 2. now rewrite clean_https.
    + left. unfold clean. now rewrite H1, H2.
Qed.

(** X10. [clean] is not idempotent: of two scheme prefixes only the first is
    removed, whatever follows. *)
Theorem clean_removes_first_prefix_only (s : string) :
  clean ("http://" ++ "https://" ++ s) = "https://" ++ s
  /\ clean ("https://" ++ "http://" ++ s) = "http://" ++ s
  /\ clean (clean ("http://" ++ "https://" ++ s)) = s
  /\ clean (clean ("http://" ++ "https://" ++ s)) <> clean ("http://" ++ "https://" ++ s).
Proof.
  rewrite (clean_http ("https://" ++ s)), (clean_https ("http://" ++ s)), clean_https.
  repeat split.
  intros H. apply (f_equal String.length) in H.
  simpl in H. lia.
Qed.

(** ** What [ParseNamed] builds *)

(** X11. The capability of the value of [ParseNamed] follows what the grammar
    extracted, the digest first: with a digest the value is [Canonical] and
    not [NamedTagged], even when a tag was extracted too; with a tag and no
    digest it is [NamedTagged] and not [Canonical]; with neither it is a
    name-only value, and not [nil]. *)
Theorem ParseNamed_capability {E : Env} (s : string) (g : LibNamed) (n : Named) :
  reference_ParseNormalizedNamed s = Ok g ->
  ParseNamed s = Ok n ->
  match libDigest g, libTag g with
  | Some _, _ => asCanonical n <> None /\ asNamedTagged n = None
  | None, Some _ => asNamedTagged n <> None /\ asCanonical n = None
  | None, None => IsNameOnly n = true /\ n <> nilNamed
  end.
Proof.
  intros Hg. unfold ParseNamed. rewrite Hg.
  destruct (WithName (libName g)) as [r|] eqn:Hw; [|discriminate]. simpl bind.
  apply WithName_inv in Hw as (v & r0 & _ & _ & _ & ->).
  destruct (libDigest g) as [d|].
  - intros H. apply WithDigest_inv in H as (c & _ & ->). split; [discriminate | reflexivity].
  - destruct (libTag g) as [t|]; intros H.
    + apply WithTag_inv in H as (c & _ & ->). split; [discriminate | reflexivity].
    + injection H as <-. split; [reflexivity | discriminate].
Qed.

Lemma ParseNamed_capability_witness :
  exists n,
    @ParseNamed StdEnv.env
      "debian:8.2@sha256:0123456789abcdef0123456789abcdef0123456789abcdef0123456789abcdef"
    = Ok n
    /\ asCanonical n <> None /\ asNamedTagged n = None.
Proof.
  set (s := "debian:8.2@sha256:0123456789abcdef0123456789abcdef0123456789abcdef0123456789abcdef").
  destruct (@ParseNamed StdEnv.env s) as [n|e] eqn:HP;
    [|vm_compute in HP; discriminate HP].
  destruct (@reference_ParseNormalizedNamed StdEnv.env s) as [g|e] eqn:Hg;
    [|vm_compute in Hg; discriminate Hg].
  pose proof (@ParseNamed_capability StdEnv.env s g n Hg HP) as H.
  vm_compute in Hg. injection Hg as <-. simpl in H.
  exists n. split; [reflexivity | exact H].
Defined.

(** ** What [Parse] returns *)

Lemma WithDefaultTag_nil_or_capable {E : Env} (n : Named) :
  WithDefaultTag n = nilNamed \/ IsNameOnly (WithDefaultTag n) = false.
Proof.
  unfold WithDefaultTag. destruct (IsNameOnly n) eqn:Hn; [|now right].
  destruct (WithTag n DefaultTag) as [n'|] eqn:Ht; [|now left].
  apply WithTag_inv in Ht as (r & _ & ->). now right.
Qed.

(** X12. A reference that [Parse] returns is never name-only: either its
    suffix is ':' or '@' followed by the tag or the digest of its name, or
    its name is [nil] and its suffix empty, and the latter only when the
    [reference] package has refused the default tag. *)
Theorem Parse_never_name_only {E : Env} (remote : string) (ref : Reference) :
  Parse remote = Ok ref ->
  ((named ref = nilNamed /\ tag ref = EmptyString)
   \/ (IsNameOnly (named ref) = false
       /\ ((exists t, asNamedTagged (named ref) = Some t /\ tag ref = ":" ++ t)
           \/ (exists d, asCanonical (named ref) = Some d /\ tag ref = "@" ++ d))))
  /\ (acceptsDefaultTag -> named ref <> nilNamed /\ tag ref <> EmptyString).
Proof.
  intros HP.
  assert (Hshape :
    (named ref = nilNamed /\ tag ref = EmptyString)
    \/ (IsNameOnly (named ref) = false
        /\ ((exists t, asNamedTagged (named ref) = Some t /\ tag ref = ":" ++ t)
            \/ (exists d, asCanonical (named ref) = Some d /\ tag ref = "@" ++ d)))).
  { apply Parse_inv in HP as (n & _ & ->). simpl named. simpl tag.
    destruct (WithDefaultTag_nil_or_capable n) as [Hn|Hn].
    - left. rewrite Hn. now split.
    - right. split; [exact Hn|].
      destruct (WithDefaultTag n) as [|r|r|r]; try discriminate Hn.
      + left. now exists (tgTag r).
      + right. now exists (cnDigest r). }
  split; [exact Hshape|].
  intros Hdef. pose proof (Parse_named_not_nil remote ref Hdef HP) as Hnil.
  split; [exact Hnil|].
  destruct Hshape as [(Hn & _) | (_ & [(t & _ & ->) | (d & _ & ->)])];
    [contradiction | discriminate | discriminate].
Qed.

Lemma Parse_never_name_only_witness :
  exists ref, @Parse StdEnv.env "alpine" = Ok ref
              /\ named ref <> nilNamed /\ tag ref <> EmptyString.
Proof.
  destruct (@Parse StdEnv.env "alpine") as [ref|e] eqn:HP;
    [|vm_compute in HP; discriminate HP].
  exists ref. split; [reflexivity|].
  exact (proj2 (@Parse_never_name_only StdEnv.env "alpine" ref HP)
           StdEnv_acceptsDefaultTag).
Defined.

(** X13. The tag of a parsed reference, when the [reference] package keeps
    tags and digests and accepts the default tag: [Tag()] is the digest that
    the grammar extracted if there is one, else the tag that it extracted,
    else "latest"; and the suffix is that string after '@', respectively
    ':'. *)
Theorem Parse_Tag_default {E : Env} (remote : string) (g : LibNamed) (ref : Reference) :
  keepsTagAndDigest -> acceptsDefaultTag ->
  reference_ParseNormalizedNamed (clean remote) = Ok g ->
  Parse remote = Ok ref ->
  match libDigest g, libTag g with
  | Some d, _ => tag ref = "@" ++ d /\ Reference_Tag ref = d
  | None, Some t => tag ref = ":" ++ t /\ Reference_Tag ref = t
  | None, None => tag ref = ":latest" /\ Reference_Tag ref = "latest"
  end.
Proof.
  intros (Kt & Kd) Hdef Hg HP.
  apply Parse_inv in HP as (n & HN & ->).
  revert HN. unfold ParseNamed. rewrite Hg.
  destruct (WithName (libName g)) as [r|] eqn:Hw; [|discriminate]. simpl bind.
  apply WithName_inv in Hw as (v & r0 & _ & _ & _ & ->).
  destruct (libDigest g) as [d|].
  - intros H. apply WithDigest_inv in H as (c & Hc & ->).
    apply Kd in Hc. rewrite WithDefaultTag_fixed by reflexivity.
    unfold suffixOf. simpl asCanonical. rewrite Hc.
    split; [reflexivity | apply Reference_Tag_cons].
  - destruct (libTag g) as [t|]; intros H.
    + apply WithTag_inv in H as (c & Hc & ->).
      apply Kt in Hc. rewrite WithDefaultTag_fixed by reflexivity.
      unfold suffixOf. simpl. rewrite Hc.
      split; [reflexivity | apply Reference_Tag_cons].
    + injection H as <-.
      destruct (Hdef (namedRef r0)) as (c & Hc); [discriminate|].
      unfold WithDefaultTag, WithTag, bind. simpl IsNameOnly. cbv iota.
      rewrite Hc. apply Kt in Hc.
      unfold suffixOf. simpl. rewrite Hc.
      split; [reflexivity | apply Reference_Tag_cons].
Qed.

Lemma StdEnv_keepsTagAndDigest : @keepsTagAndDigest StdEnv.env.
Proof.
  split.
  - intros n t r. simpl. unfold StdEnv.WithTag.
    destruct (negb (StdEnv.tagOK t)); [discriminate|].
    destruct (Named_Name n) as [path|]; [|discriminate].
    destruct (asCanonical n); intros H; injection H as <-; reflexivity.
  - intros n d r. simpl. unfold StdEnv.WithDigest.
    destruct (negb (StdEnv.digestOK d)); [discriminate|].
    destruct (Named_Name n) as [path|]; [|discriminate].
    destruct (asNamedTagged n); intros H; injection H as <-; reflexivity.
Qed.

Lemma Parse_Tag_default_witness :
  exists ref, @Parse StdEnv.env "https://quay.io/coreos/etcd" = Ok ref
              /\ tag ref = ":latest" /\ Reference_Tag ref = "latest".
Proof.
  set (s := "https://quay.io/coreos/etcd").
  destruct (@Parse StdEnv.env s) as [ref|e] eqn:HP;
    [|vm_compute in HP; discriminate HP].
  destruct (@reference_ParseNormalizedNamed StdEnv.env (clean s)) as [g|e] eqn:Hg;
    [|vm_compute in Hg; discriminate Hg].
  pose proof (@Parse_Tag_default StdEnv.env s g ref
                StdEnv_keepsTagAndDigest StdEnv_acceptsDefaultTag Hg HP) as H.
  vm_compute in Hg. injection Hg as <-. simpl in H.
  exists ref. split; [reflexivity | exact H].
Defined.

(** ** The stored name of a parsed reference *)

Lemma Parse_stored_name {E : Env} (remote : string) (g : LibNamed) (ref : Reference) :
  keepsName -> acceptsDefaultTag ->
  reference_ParseNormalizedNamed (clean remote) = Ok g ->
  Parse remote = Ok ref ->
  exists v, normalize (libName g) = Ok v /\ Named_Name (named ref) = Some v.
Proof.
  intros K Hdef Hg HP.
  pose proof (Parse_named_not_nil remote ref Hdef HP) as Hnil.
  apply Parse_inv in HP as (n & HN & ->). simpl in *.
  destruct (ParseNamed_Name _ g n K Hg HN) as (v & Hv & Hname).
  exists v. split; [exact Hv|].
  destruct (WithDefaultTag_Name n K) as [Hn|Hn]; [contradiction | congruence].
Qed.

(** * The properties, as stated *)

(** X1. [splitHostname] is one of four cases.  A name without a slash is
    an official image of the default registry.  Otherwise let [p] be the
    segment before the first slash and [r] the rest: when [p] does not look
    like a host (no '.', no ':', not "localhost") the whole name is the
    remote name under the default registry; when [p] is "docker.io" or
    "index.docker.io" the registry is the default one and [r] the remote
    name, prefixed with "library/" if it is a single segment; in every other
    case the result is [(p, r)]. *)
Theorem splitHostname_four_cases (name : string) :
  (ContainsRune name "/" = false
   /\ splitHostname name = ("index.docker.io", "library/" ++ name))
  \/ (exists p r,
        name = p ++ "/" ++ r /\ ContainsRune p "/" = false
        /\ ((hostLike p = false
             /\ splitHostname name = ("index.docker.io", name))
            \/ (hostLike p = true
                /\ (p = "docker.io" \/ p = "index.docker.io")
                /\ splitHostname name
                   = ("index.docker.io",
                      if ContainsRune r "/" then r else "library/" ++ r))
            \/ (hostLike p = true
                /\ p <> "docker.io" /\ p <> "index.docker.io"
                /\ splitHostname name = (p, r)))).
Proof. exact (splitHostname_analysis name). Qed.

(** X2. Under the default registry the remote name has at least two
    segments: whenever [splitHostname] returns "index.docker.io", the
    remote name it returns contains a slash. *)
Theorem splitHostname_default_has_slash (name : string) :
  fst (splitHostname name) = "index.docker.io" ->
  ContainsRune (snd (splitHostname name)) "/" = true.
Proof. exact (splitHostname_default_slash name). Qed.

Lemma splitHostname_default_has_slash_witness :
  ContainsRune (snd (splitHostname "docker.io/ubuntu")) "/" = true.
Proof. exact (splitHostname_default_has_slash "docker.io/ubuntu" eq_refl). Defined.

(** X3. The full name splits back into its parts: for a [Named] value whose
    [FullName()] is [full], [splitHostname full] is the pair of its
    [Hostname()] and its [RemoteName()]. *)
Theorem Named_FullName_splits_back (n : Named) (full : string) :
  Named_FullName n = Some full ->
  Named_Hostname n = Some (fst (splitHostname full))
  /\ Named_RemoteName n = Some (snd (splitHostname full)).
Proof.
  rewrite Named_FullName_eq, Named_Hostname_eq, Named_RemoteName_eq.
  destruct (Named_Name n) as [name|]; cbn [option_map]; [|discriminate].
  intros H.
  assert (Hf : full = fst (splitHostname name) ++ "/" ++ snd (splitHostname name))
    by congruence.
  now rewrite Hf, (splitHostname_resplit name).
Qed.

Lemma Named_FullName_splits_back_witness :
  let n := namedRef {| libName := "ubuntu"; libString := "ubuntu";
                       libTag := None; libDigest := None |} in
  Named_FullName n = Some "index.docker.io/library/ubuntu"
  /\ Named_RemoteName n = Some "library/ubuntu".
Proof.
  intros n. split; [reflexivity|].
  exact (proj2 (Named_FullName_splits_back n "index.docker.io/library/ubuntu" eq_refl)).
Defined.

(** X4. An explicit registry is kept as it is: when the segment [p] before
    the first slash looks like a host and is neither "docker.io" nor
    "index.docker.io", [splitHostname] returns [p] and the rest, and the
    [FullName()] of a value with that name is the name again. *)
Theorem splitHostname_explicit_host (p r : string) :
  ContainsRune p "/" = false -> hostLike p = true ->
  p <> "docker.io" -> p <> "index.docker.io" ->
  splitHostname (p ++ "/" ++ r) = (p, r)
  /\ Named_FullName (namedRef {| libName := p ++ "/" ++ r; libString := p ++ "/" ++ r;
                                libTag := None; libDigest := None |})
     = Some (p ++ "/" ++ r).
Proof. exact (splitHostname_explicit p r). Qed.

Lemma splitHostname_explicit_host_witness :
  splitHostname "myregistry.local:5000/team/app" = ("myregistry.local:5000", "team/app").
Proof.
  refine (proj1 (splitHostname_explicit_host "myregistry.local:5000" "team/app" _ _ _ _));
    [reflexivity | reflexivity | discriminate | discriminate].
Defined.

(** X14. The accessors of a [Reference] fit together.  When its name is not
    [nil], with [reg] its [Registry()] and [short] its [ShortName()]:
    [Repository()] is [reg/short], [Remote()] is that followed by the
    suffix, [Name()] is [short] followed by the suffix; [reg] is never
    "docker.io", and [Repository()] splits back into [reg] and [short]. *)
Theorem Reference_accessors_compose (r : Reference) :
  named r <> nilNamed ->
  exists reg short,
    Reference_Registry r = Some reg
    /\ Reference_ShortName r = Some short
    /\ Reference_Repository r = Some (reg ++ "/" ++ short)
    /\ Reference_Remote r = Some ((reg ++ "/" ++ short) ++ tag r)
    /\ Reference_Name r = Some (short ++ tag r)
    /\ reg <> "docker.io"
    /\ splitHostname (reg ++ "/" ++ short) = (reg, short).
Proof.
  intros Hnil.
  unfold Reference_Registry, Reference_ShortName, Reference_Repository,
    Reference_Remote, Reference_Name.
  rewrite Named_Hostname_eq, Named_RemoteName_eq, Named_FullName_eq.
  destruct (Named_Name (named r)) as [name|] eqn:Hn;
    [|apply Named_Name_nil in Hn; contradiction].
  exists (fst (splitHostname name)), (snd (splitHostname name)).
  cbn [option_map andThen].
  repeat split.
  - apply splitHostname_not_alias.
  - rewrite (splitHostname_resplit name). now destruct (splitHostname name).
Qed.

Lemma Reference_accessors_compose_witness :
  let r := {| named := taggedRef {| tgName := "team/app"; tgString := "team/app:1.2";
                                    tgTag := "1.2"; tgDigest := None |};
              tag := ":1.2" |} in
  Reference_Repository r = Some "index.docker.io/team/app"
  /\ Reference_Remote r = Some "index.docker.io/team/app:1.2"
  /\ exists reg short,
       Reference_Registry r = Some reg /\ Reference_ShortName r = Some short
       /\ splitHostname (reg ++ "/" ++ short) = (reg, short).
Proof.
  intros r. split; [reflexivity|]. split; [reflexivity|].
  destruct (Reference_accessors_compose r) as (reg & short & H1 & H2 & _ & _ & _ & _ & H7);
    [discriminate|].
  exists reg, short. now repeat split.
Defined.

(** X15. The coordinates of a parsed reference come from the normalised
    name.  When the [reference] package keeps names and accepts the default
    tag, and the grammar extracted a name whose normal form is [v], then
    [Registry()] and [ShortName()] are the hostname and the remote name that
    [splitHostname] derives from [v], and [Repository()] is the two joined
    by a slash. *)
Theorem Parse_coordinates {E : Env} (remote : string) (g : LibNamed) (ref : Reference) :
  keepsName -> acceptsDefaultTag ->
  reference_ParseNormalizedNamed (clean remote) = Ok g ->
  Parse remote = Ok ref ->
  exists v,
    normalize (libName g) = Ok v
    /\ Reference_Registry ref = Some (fst (splitHostname v))
    /\ Reference_ShortName ref = Some (snd (splitHostname v))
    /\ Reference_Repository ref
       = Some (fst (splitHostname v) ++ "/" ++ snd (splitHostname v)).
Proof.
  intros K Hdef Hg HP.
  destruct (Parse_stored_name remote g ref K Hdef Hg HP) as (v & Hv & Hname).
  exists v. split; [exact Hv|].
  unfold Reference_Registry, Reference_ShortName, Reference_Repository.
  rewrite Named_Hostname_eq, Named_RemoteName_eq, Named_FullName_eq, Hname.
  repeat split.
Qed.

Lemma Parse_coordinates_witness :
  exists ref, @Parse StdEnv.env "http://docker.io/redis:7" = Ok ref
              /\ Reference_Registry ref = Some "index.docker.io"
              /\ Reference_ShortName ref = Some "library/redis"
              /\ Reference_Repository ref = Some "index.docker.io/library/redis".
Proof.
  set (s := "http://docker.io/redis:7").
  destruct (@Parse StdEnv.env s) as [ref|e] eqn:HP;
    [|vm_compute in HP; discriminate HP].
  destruct (@reference_ParseNormalizedNamed StdEnv.env (clean s)) as [g|e] eqn:Hg;
    [|vm_compute in Hg; discriminate Hg].
  destruct (@Parse_coordinates StdEnv.env s g ref
              StdEnv_keepsName StdEnv_acceptsDefaultTag Hg HP)
    as (v & Hv & H1 & H2 & H3).
  vm_compute in Hg. injection Hg as <-.
  vm_compute in Hv. injection Hv as <-.
  exists ref. split; [reflexivity|]. split; [exact H1|]. split; [exact H2 | exact H3].
Defined.

(** X16. A name that is an ID is refused after normalisation.  When the
    grammar extracts a name whose normal form [v] passes [ValidateID],
    [WithName], [ParseNamed], [Parse] and [ParseRepo] all return the error of
    [validateName], which carries [v], the normalised name, and the
    [reference] package is not asked to build the name. *)
Theorem Parse_hex_name_rejected {E : Env} (remote : string) (g : LibNamed) (v : string) :
  reference_ParseNormalizedNamed (clean remote) = Ok g ->
  normalize (libName g) = Ok v ->
  ValidateID v = true ->
  WithName (libName g) = Err (ErrHexName v)
  /\ ParseNamed (clean remote) = Err (ErrHexName v)
  /\ Parse remote = Err (ErrHexName v)
  /\ ParseRepo remote = Some (Err (ErrHexName v)).
Proof.
  intros Hg Hv Hid.
  assert (Hw : WithName (libName g) = Err (ErrHexName v)).
  { unfold WithName, validateName. rewrite Hv. simpl bind. now rewrite Hid. }
  assert (Hp : ParseNamed (clean remote) = Err (ErrHexName v)).
  { unfold ParseNamed. now rewrite Hg, Hw. }
  unfold ParseRepo. rewrite Parse_unfold, Hp. now repeat split.
Qed.

Lemma Parse_hex_name_rejected_witness :
  @Parse StdEnv.env
    "docker.io/library/0123456789abcdef0123456789abcdef0123456789abcdef0123456789abcdef"
  = Err (ErrHexName "0123456789abcdef0123456789abcdef0123456789abcdef0123456789abcdef").
Proof.
  set (s := "docker.io/library/0123456789abcdef0123456789abcdef0123456789abcdef0123456789abcdef").
  destruct (@reference_ParseNormalizedNamed StdEnv.env (clean s)) as [g|e] eqn:Hg;
    [|vm_compute in Hg; discriminate Hg].
  refine (proj1 (proj2 (proj2
    (@Parse_hex_name_rejected StdEnv.env s g
       "0123456789abcdef0123456789abcdef0123456789abcdef0123456789abcdef" Hg _ _))));
    vm_compute in Hg; injection Hg as <-; vm_compute; reflexivity.
Defined.

(** X17. [ParseRepo] panics exactly when [Parse] returns a reference whose
    name is [nil], that is, when [WithDefaultTag] has dropped an error of
    [WithTag]; it never does when the [reference] package accepts the
    default tag. *)
Theorem ParseRepo_panics_iff_nil {E : Env} (remote : string) :
  (ParseRepo remote = None
   <-> exists ref, Parse remote = Ok ref /\ named ref = nilNamed)
  /\ (ParseRepo remote = None ->
      exists n e, ParseNamed (clean remote) = Ok n
                  /\ IsNameOnly n = true /\ WithTag n DefaultTag = Err e)
  /\ (acceptsDefaultTag -> ParseRepo remote <> None).
Proof.
  pose proof (ParseRepo_Parse remote) as H.
  assert (Hiff : ParseRepo remote = None
                 <-> exists ref, Parse remote = Ok ref /\ named ref = nilNamed).
  { split.
    - intros Hp. rewrite Hp in H.
      destruct (Parse remote) as [ref|e]; [|contradiction]. now exists ref.
    - intros (ref & Hr & Hnil). rewrite Hr in H.
      destruct (ParseRepo remote) as [[rec|e]|]; [|contradiction|reflexivity].
      destruct H as (Hname & _). unfold Reference_Name in Hname.
      rewrite Hnil in Hname. discriminate. }
  split; [exact Hiff|]. split.
  - intros Hp. apply Hiff in Hp as (ref & HP & Hnil).
    apply Parse_inv in HP as (n & HN & ->). simpl in Hnil.
    exists n. unfold WithDefaultTag in Hnil.
    destruct (IsNameOnly n) eqn:Hn.
    + destruct (WithTag n DefaultTag) as [n'|e] eqn:Ht.
      * apply WithTag_inv in Ht as (r & _ & ->). discriminate.
      * now exists e.
    + subst n. discriminate.
  - intros Hdef Hp. apply Hiff in Hp as (ref & HP & Hnil).
    exact (Parse_named_not_nil remote ref Hdef HP Hnil).
Qed.

Lemma ParseRepo_panics_iff_nil_witness :
  @ParseRepo StdEnv.env "ubuntu" <> None.
Proof.
  exact (proj2 (proj2 (@ParseRepo_panics_iff_nil StdEnv.env "ubuntu"))
           StdEnv_acceptsDefaultTag).
Defined.

(** X18. What [WithName] builds and when.  [WithName] succeeds exactly when
    the name is normalised to some [v], [v] is not an ID and the [reference]
    package builds a name from [v], not from the string given; the value is
    then name-only: it has neither a tag nor a digest and is not [nil]. *)
Theorem WithName_result {E : Env} (name : string) :
  (forall n, WithName name = Ok n ->
     IsNameOnly n = true /\ asNamedTagged n = None /\ asCanonical n = None
     /\ n <> nilNamed)
  /\ ((exists n, WithName name = Ok n)
      <-> exists v r, normalize name = Ok v /\ ValidateID v = false
                      /\ reference_WithName v = Ok r).
Proof.
  split.
  - intros n Hn. apply WithName_inv in Hn as (v & r & _ & _ & _ & ->).
    repeat split. discriminate.
  - split.
    + intros (n & Hn). apply WithName_inv in Hn as (v & r & Hv & Hid & Hr & _).
      now exists v, r.
    + intros (v & r & Hv & Hid & Hr). exists (namedRef r).
      unfold WithName, validateName. rewrite Hv. simpl bind. now rewrite Hid, Hr.
Qed.

Lemma WithName_result_witness :
  exists n, @WithName StdEnv.env "index.docker.io/library/nginx" = Ok n
            /\ IsNameOnly n = true /\ Named_Name n = Some "nginx".
Proof.
  destruct (@WithName StdEnv.env "index.docker.io/library/nginx") as [n|e] eqn:Hn;
    [|vm_compute in Hn; discriminate Hn].
  exists n. split; [reflexivity|]. split.
  - exact (proj1 (proj1 (@WithName_result StdEnv.env "index.docker.io/library/nginx") n Hn)).
  - vm_compute in Hn. injection Hn as <-. reflexivity.
Defined.
